(** * ShineMonitor ESS PWA: the API client (js/api.js)

    A shallow embedding of the [API] object of [shinemonitor-pwa/js/api.js]
    together with the helpers of [Utils] it calls (local storage access,
    query-string construction, fetch with timeout), and the properties of
    request signing, session handling and envelope decoding that hold of it.

    Conventions of the model.
    - A JavaScript string is a Rocq [string]: the sequence of bytes of its
      UTF-8 encoding (the encoding CryptoJS hashes).
    - A JavaScript value is a [value]: [undefined] or a JSON value.  Numbers
      are the integers ([Z]); [-0] and [0] are the same number.
    - The effects of the code are explicit: the [API] object and
      [localStorage] are threaded through every operation, [Date.now()] and
      the outcome of [fetch] are inputs of the call that uses them, and every
      operation that reaches the network returns the requests it issued. *)

From Stdlib Require Import ZArith List String Ascii Lia DecimalString DecimalZ.
From stdpp Require Import gmap strings.
Import ListNotations.

(** ** SHA-1 and the hexadecimal encoder

    [CryptoJS.SHA1(data).toString()] is third-party code.  It is modelled by
    the algorithm it implements (FIPS 180-4, section 6.1) on 32-bit words
    held in [Z], followed by CryptoJS's [Hex.stringify]. *)
Module Sha1.
Local Open Scope Z_scope.

Definition w32 (x : Z) : Z := Z.land x 0xFFFFFFFF.

Definition add32 (x y : Z) : Z := w32 (x + y).

Definition rotl (n x : Z) : Z :=
  w32 (Z.lor (Z.shiftl x n) (Z.shiftr x (32 - n))).

Definition not32 (x : Z) : Z := Z.lxor x 0xFFFFFFFF.

(** The hash value: five 32-bit words. *)
Record hash := Hash { h0 : Z; h1 : Z; h2 : Z; h3 : Z; h4 : Z }.

Definition H_init : hash :=
  Hash 0x67452301 0xefcdab89 0x98badcfe 0x10325476 0xc3d2e1f0.

(** The round function and constant for round [t]. *)
Definition f (t : Z) (b c d : Z) : Z :=
  if t <? 20 then Z.lor (Z.land b c) (Z.land (not32 b) d)
  else if t <? 40 then Z.lxor (Z.lxor b c) d
  else if t <? 60 then Z.lor (Z.lor (Z.land b c) (Z.land b d)) (Z.land c d)
  else Z.lxor (Z.lxor b c) d.

Definition K (t : Z) : Z :=
  if t <? 20 then 0x5a827999
  else if t <? 40 then 0x6ed9eba1
  else if t <? 60 then 0x8f1bbcdc
  else 0xca62c1d6.

(** Bytes of a string, and big-endian packing into words. *)
Definition bytes_of_string (s : string) : list Z :=
  map (fun c => Z.of_N (N_of_ascii c)) (list_ascii_of_string s).

Fixpoint words_of_bytes (bs : list Z) : list Z :=
  match bs with
  | b0 :: b1 :: b2 :: b3 :: rest =>
      Z.lor (Z.shiftl b0 24) (Z.lor (Z.shiftl b1 16) (Z.lor (Z.shiftl b2 8) b3))
      :: words_of_bytes rest
  | _ => []
  end.

(** Padding: the bit 1, zeros up to 56 modulo 64 bytes, and the bit length
    of the message as a 64-bit big-endian integer. *)
Definition pad (bs : list Z) : list Z :=
  let n := Z.of_nat (List.length bs) in
  let zeros := Z.to_nat ((55 - n) mod 64) in
  let bits := 8 * n in
  bs ++ [0x80] ++ repeat 0 zeros
     ++ map (fun i => Z.land (Z.shiftr bits (8 * (7 - i))) 0xFF)
            [0; 1; 2; 3; 4; 5; 6; 7].

Fixpoint blocks (fuel : nat) (ws : list Z) : list (list Z) :=
  match fuel, ws with
  | S fuel', _ :: _ => firstn 16 ws :: blocks fuel' (skipn 16 ws)
  | _, _ => []
  end.

(** The message schedule, kept newest word first while it is extended. *)
Fixpoint expand (n : nat) (rw : list Z) : list Z :=
  match n with
  | O => rw
  | S n' =>
      let x := Z.lxor (Z.lxor (nth 2 rw 0) (nth 7 rw 0))
                      (Z.lxor (nth 13 rw 0) (nth 15 rw 0)) in
      expand n' (rotl 1 x :: rw)
  end.

Definition schedule (block : list Z) : list Z := rev (expand 64 (rev block)).

Definition round (st : hash * Z) (wt : Z) : hash * Z :=
  let '(Hash a b c d e, t) := st in
  let tmp := add32 (add32 (add32 (add32 (rotl 5 a) (f t b c d)) e) (K t)) wt in
  (Hash tmp a (rotl 30 b) c d, t + 1).

Definition process_block (h : hash) (block : list Z) : hash :=
  let '(Hash a b c d e) := fst (fold_left round (schedule block) (h, 0)) in
  Hash (add32 (h0 h) a) (add32 (h1 h) b) (add32 (h2 h) c)
       (add32 (h3 h) d) (add32 (h4 h) e).

(** [CryptoJS.SHA1(data)] for a string [data]. *)
Definition SHA1 (data : string) : hash :=
  let ws := words_of_bytes (pad (bytes_of_string data)) in
  fold_left process_block (blocks (List.length ws) ws) H_init.

(** [Number.prototype.toString(16)] on a nibble. *)
Definition hex_digits : list ascii :=
  list_ascii_of_string "0123456789abcdef".

Definition hex_digit (n : Z) : ascii := nth (Z.to_nat n) hex_digits "0"%char.

(** [Hex.stringify]: two digits for each byte, most significant byte of
    each word first. *)
Definition hex_of_byte (bite : Z) : list ascii :=
  [hex_digit (Z.shiftr bite 4); hex_digit (Z.land bite 0x0f)].

Definition hex_of_word (w : Z) : list ascii :=
  flat_map (fun i => hex_of_byte (Z.land (Z.shiftr w (24 - i * 8)) 0xff))
           [0; 1; 2; 3].

Definition toString (h : hash) : string :=
  string_of_list_ascii
    (flat_map hex_of_word [h0 h; h1 h; h2 h; h3 h; h4 h]).

End Sha1.

(** ** JavaScript values *)
Module JS.
Local Set Warnings "-register-all".

Inductive value :=
| Undefined
| Null
| Bool (b : bool)
| Num (n : Z)
| Str (s : string)
| Arr (items : list value)
| Obj (fields : list (string * value)).

(** An object literal: its properties in insertion order. *)
Definition object := list (string * value).

(** The outcome of evaluating an expression or awaiting a promise: a value,
    or a thrown [Error] of which only [message] is observed. *)
Inductive completion (A : Type) :=
| Return (a : A)
| Throw (message : string).
Arguments Return {A} a.
Arguments Throw {A} message.

(** ToBoolean. *)
Definition truthy (v : value) : bool :=
  match v with
  | Undefined | Null => false
  | Bool b => b
  | Num n => negb (n =? 0)%Z
  | Str s => negb (String.eqb s "")
  | Arr _ | Obj _ => true
  end.

(** [a || b]. *)
Definition or (a b : value) : value := if truthy a then a else b.

(** [a === b] for the one right-hand side the code compares with. *)
Definition strict_eq_zero (a : value) : bool :=
  match a with
  | Num 0 => true
  | _ => false
  end.

(** [Number.prototype.toString()] of an integer: its decimal digits, as
    JavaScript prints every integer of magnitude below 2^53 (the clock
    readings among them); beyond 10^21 JavaScript prints an exponent. *)
Definition number_toString (n : Z) : string :=
  NilZero.string_of_int (Z.to_int n).

Definition join (sep : string) (parts : list string) : string :=
  match parts with
  | [] => ""
  | p :: rest => fold_left (fun acc q => acc ++ sep ++ q) rest p
  end%string.

(** ToString, as applied by [+] with a string operand and by
    [URLSearchParams] to the values of a record, on the values that have
    a string ([convertible] below).  On an object with a property
    [toString] of its own the conversion of JavaScript throws a TypeError
    instead; this function does not tell. *)
Fixpoint to_string (v : value) : string :=
  match v with
  | Undefined => "undefined"
  | Null => "null"
  | Bool true => "true"
  | Bool false => "false"
  | Num n => number_toString n
  | Str s => s
  | Arr items =>
      join ","
        (map (fun x => match x with
                       | Undefined | Null => ""%string
                       | _ => to_string x
                       end) items)
  | Obj _ => "[object Object]"
  end.

(** [string + v], for a [v] that is [convertible]. *)
Definition concat (s : string) (v : value) : string :=
  (s ++ to_string v)%string.

Fixpoint lookup_field (k : string) (o : object) : option value :=
  match o with
  | [] => None
  | (k', v) :: rest => if String.eqb k k' then Some v else lookup_field k rest
  end.

(** [o.k] on an object literal. *)
Definition field (k : string) (o : object) : value :=
  match lookup_field k o with
  | Some v => v
  | None => Undefined
  end.

(** The values ToString converts without throwing.  An object out of
    [JSON.parse] holds no function, so that a property [toString] of its
    own hides the inherited method and leaves the conversion with nothing
    to call; an array is converted item by item, [null] and [undefined]
    as the empty string. *)
Fixpoint convertible (v : value) : bool :=
  match v with
  | Arr items => forallb convertible items
  | Obj fields =>
      match lookup_field "toString" fields with
      | None => true
      | Some _ => false
      end
  | _ => true
  end.

(** [v.k] on any value, for the property names the client reads ([err],
    [desc], [dat], [token], [secret], [userid], [authTime]): none of them is
    defined on a primitive or on an array, and reading a property of [null]
    or [undefined] throws a TypeError. *)
Definition get (v : value) (k : string) : completion value :=
  match v with
  | Undefined =>
      Throw ("Cannot read properties of undefined (reading '" ++ k ++ "')")
  | Null => Throw ("Cannot read properties of null (reading '" ++ k ++ "')")
  | Obj fields => Return (field k fields)
  | _ => Return Undefined
  end%string.

(** Writing a property: in place when the object has it, last otherwise. *)
Fixpoint set_field (k : string) (v : value) (o : object) : object :=
  match o with
  | [] => [(k, v)]
  | (k', v') :: rest =>
      if String.eqb k k' then (k, v) :: rest else (k', v') :: set_field k v rest
  end.

(** [{ ...a, ...b }].  The names are kept in the order they were
    written; JavaScript lists names that are array indices first. *)
Definition spread (a b : object) : object :=
  fold_left (fun o kv => set_field (fst kv) (snd kv) o) b a.

(** What [JSON.parse(JSON.stringify(v))] returns for a [v] that
    [JSON.stringify] accepts: properties holding [undefined] are dropped and
    [undefined] array items become [null]. *)
Fixpoint json_clone (v : value) : value :=
  match v with
  | Arr items =>
      Arr (map (fun x => match x with
                         | Undefined => Null
                         | _ => json_clone x
                         end) items)
  | Obj fields =>
      Obj ((fix clone_fields (fs : list (string * value)) :=
              match fs with
              | [] => []
              | (k, Undefined) :: rest => clone_fields rest
              | (k, x) :: rest => (k, json_clone x) :: clone_fields rest
              end) fields)
  | _ => v
  end.

(** [String.prototype.toLowerCase] on the ASCII letters; the other bytes of
    a string are left as they are. *)
Definition lower_ascii (c : ascii) : ascii :=
  let n := nat_of_ascii c in
  if ((65 <=? n) && (n <=? 90))%nat then ascii_of_nat (n + 32) else c.

Fixpoint toLowerCase (s : string) : string :=
  match s with
  | EmptyString => EmptyString
  | String c rest => String (lower_ascii c) (toLowerCase rest)
  end.

End JS.
Import JS.

(** ** The browser: local storage, the clock and the network *)
Module Browser.

(** What [JSON.parse] makes of the string stored under a key: [Malformed]
    stands for a string it rejects and for the empty string. *)
Inductive item :=
| Malformed
| Json (v : value).

(** The string [JSON.stringify(v)] that [setItem] stores, read back. *)
Definition item_of_value (v : value) : item :=
  match v with
  | Undefined => Malformed
  | _ => Json (json_clone v)
  end.

(** A request handed to [fetch].  [query] and [body] hold the name-value
    pairs of the [URLSearchParams] that the code serialises into the URL
    or the form body. *)
Record http_request := HttpRequest {
  method : string;
  url : string;
  query : list (string * string);
  headers : list (string * string);
  body : list (string * string);
  timeout : option Z
}.

(** [response.json()]. *)
Inductive response :=
| NotJson (message : string)
| JsonBody (data : value).

(** The promise returned by [fetch]. *)
Inductive fetch_outcome :=
| Rejects (message : string)
| Responds (r : response).

(** The environment of one call of the client. *)
Record env := Env {
  Date_now : Z;
  fetch : http_request -> fetch_outcome;
  settles_in_time : http_request -> bool;
  setItem_succeeds : bool
}.

End Browser.
Import Browser.

(** ** [URLSearchParams]

    The browser's [URLSearchParams], modelled by the serializer and the
    parser of application/x-www-form-urlencoded of the URL standard, on a
    list of name-value pairs. *)
Module URLSearchParams.

(** The bytes the serializer leaves as they are: letters, digits and
    [*], [-], [.], [_]. *)
Definition is_unreserved (c : ascii) : bool :=
  let n := nat_of_ascii c in
  ((48 <=? n) && (n <=? 57) || (65 <=? n) && (n <=? 90)
   || (97 <=? n) && (n <=? 122)
   || (n =? 42) || (n =? 45) || (n =? 46) || (n =? 95))%nat.

Definition upper_hex_digit (n : nat) : ascii :=
  nth n (list_ascii_of_string "0123456789ABCDEF") "0"%char.

(** A space becomes [+]; any other byte outside the set above becomes [%]
    and two uppercase hexadecimal digits. *)
Fixpoint percent_encode (s : string) : string :=
  match s with
  | EmptyString => EmptyString
  | String c rest =>
      if Ascii.eqb c " " then String "+" (percent_encode rest)
      else if is_unreserved c then String c (percent_encode rest)
      else
        String "%"
          (String (upper_hex_digit (nat_of_ascii c / 16))
             (String (upper_hex_digit (nat_of_ascii c mod 16))
                (percent_encode rest)))
  end.

(** [toString()]: the pairs as [name=value], joined by [&]. *)
Fixpoint toString (pairs : list (string * string)) : string :=
  match pairs with
  | [] => ""
  | (name, value) :: rest =>
      let pair := (percent_encode name ++ "=" ++ percent_encode value) in
      match rest with
      | [] => pair
      | _ :: _ => pair ++ "&" ++ toString rest
      end
  end%string.

Definition hex_value (c : ascii) : option nat :=
  let n := nat_of_ascii c in
  if ((48 <=? n) && (n <=? 57))%nat then Some (n - 48)
  else if ((65 <=? n) && (n <=? 70))%nat then Some (n - 55)
  else if ((97 <=? n) && (n <=? 102))%nat then Some (n - 87)
  else None.

(** A [%] followed by two hexadecimal digits is the byte they denote; any
    other byte, a [%] without two such digits included, stands for itself.
    The bytes are kept as they are: the browser goes on to decode them as
    UTF-8, which changes nothing in well-formed text. *)
Fixpoint percent_decode (s : string) : string :=
  match s with
  | EmptyString => EmptyString
  | String c tail =>
      if Ascii.eqb c "%" then
        match tail with
        | String a (String b rest) =>
            match hex_value a, hex_value b with
            | Some hi, Some lo =>
                String (ascii_of_nat (16 * hi + lo)) (percent_decode rest)
            | _, _ => String c (percent_decode tail)
            end
        | _ => String c (percent_decode tail)
        end
      else String c (percent_decode tail)
  end.

Fixpoint plus_to_space (s : string) : string :=
  match s with
  | EmptyString => EmptyString
  | String c rest =>
      String (if Ascii.eqb c "+" then " "%char else c) (plus_to_space rest)
  end.

(** The pieces of [s] between the occurrences of [sep]. *)
Fixpoint split (sep : ascii) (s : string) : list string :=
  match s with
  | EmptyString => [EmptyString]
  | String c rest =>
      if Ascii.eqb c sep then EmptyString :: split sep rest
      else
        match split sep rest with
        | [] => [String c EmptyString]
        | piece :: pieces => String c piece :: pieces
        end
  end.

(** The name before the first [=] and the value after it, if there is one. *)
Fixpoint cut (s : string) : string * option string :=
  match s with
  | EmptyString => (EmptyString, None)
  | String c rest =>
      if Ascii.eqb c "=" then (EmptyString, Some rest)
      else let (name, value) := cut rest in (String c name, value)
  end.

(** One piece of the input: nothing for an empty piece, a pair otherwise,
    with [+] read as a space and the percent escapes decoded. *)
Definition parse_piece (piece : string) : list (string * string) :=
  match piece with
  | EmptyString => []
  | _ =>
      let (name, value) := cut piece in
      [(percent_decode (plus_to_space name),
        percent_decode
          (plus_to_space
             match value with
             | Some v => v
             | None => EmptyString
             end))]
  end.

(** [new URLSearchParams(init)] for a string: a leading [?] is dropped and
    the rest is read piece by piece. *)
Definition parse (init : string) : list (string * string) :=
  let input :=
    match init with
    | String "?" rest => rest
    | _ => init
    end in
  flat_map parse_piece (split "&" input).


End URLSearchParams.

(** ** js/utils.js: the helpers the client calls *)
Module Utils.

Definition getLocalStorage (key : string) (defaultValue : value)
    (ls : gmap string item) : value :=
  match ls !! key with
  | Some (Json v) => v
  | _ => defaultValue
  end.

Definition setLocalStorage (e : env) (key : string) (v : value)
    (ls : gmap string item) : bool * gmap string item :=
  if setItem_succeeds e then (true, <[key := item_of_value v]> ls)
  else (false, ls).

Definition removeLocalStorage (key : string) (ls : gmap string item)
    : bool * gmap string item :=
  (true, delete key ls).

(** The pairs of [new URLSearchParams(params)], for values that are
    [convertible]; on another value the constructor throws. *)
Definition toQueryString (params : object) : list (string * string) :=
  map (fun kv => (fst kv, to_string (snd kv))) params.

(** [Promise.race] of the fetch and of a timer that rejects. *)
Definition fetchWithTimeout (e : env) (req : http_request) : fetch_outcome :=
  if settles_in_time e req then fetch e req
  else Rejects "Request timeout".

(** The string [toQueryString] returns: the pairs above, serialised. *)
Definition queryString (params : object) : string :=
  URLSearchParams.toString (toQueryString params).



(** [JSON.parse(JSON.stringify(obj))]: [JSON.stringify(undefined)] is
    [undefined], which [JSON.parse] reads as the text "undefined" and
    rejects with a SyntaxError. *)
Definition deepClone (obj : value) : completion value :=
  match obj with
  | Undefined =>
      Throw "JSON.parse: unexpected character at line 1 column 1 of the JSON data"
  | _ => Return (json_clone obj)
  end.

End Utils.

(** ** js/api.js: the [API] object *)
Module API.

(** The mutable fields of the object. *)
Record state := State {
  baseURL : value;
  token : value;
  secret : value;
  authTime : value
}.

Definition companyKey : string := "bnrl_frRFjEz8Mkn".

(** The object literal, before [API.init()] runs. *)
Definition initial : state :=
  State (Str "http://android.shinemonitor.com/public/") Null Null Null.

Definition set_baseURL (v : value) (st : state) : state :=
  State v (token st) (secret st) (authTime st).
Definition set_token (v : value) (st : state) : state :=
  State (baseURL st) v (secret st) (authTime st).
Definition set_secret (v : value) (st : state) : state :=
  State (baseURL st) (token st) v (authTime st).
Definition set_authTime (v : value) (st : state) : state :=
  State (baseURL st) (token st) (secret st) v.

(** Everything a method can change: the object and [localStorage]. *)
Record world := World {
  this : state;
  localStorage : gmap string item
}.

(** A method body: it runs in a world, returns or throws, leaves a world
    behind and has handed some requests to [fetch]. *)
Definition M (A : Type) : Type :=
  world -> completion A * world * list http_request.

Definition ret {A} (a : A) : M A := fun w => (Return a, w, []).

Definition bind {A B} (m : M A) (k : A -> M B) : M B :=
  fun w =>
    match m w with
    | (Return a, w1, sent1) =>
        let '(r, w2, sent2) := k a w1 in (r, w2, sent1 ++ sent2)
    | (Throw message, w1, sent1) => (Throw message, w1, sent1)
    end.

(** [try { m } catch (error) { handler(error.message) }]. *)
Definition try_catch {A} (m : M A) (handler : string -> M A) : M A :=
  fun w =>
    match m w with
    | (Return a, w1, sent1) => (Return a, w1, sent1)
    | (Throw message, w1, sent1) =>
        let '(r, w2, sent2) := handler message w1 in (r, w2, sent1 ++ sent2)
    end.

Definition lift {A} (c : completion A) : M A := fun w => (c, w, []).

Definition read {A} (get_field : state -> A) : M A :=
  fun w => (Return (get_field (this w)), w, []).

Definition write (update : state -> state) : M unit :=
  fun w => (Return tt, World (update (this w)) (localStorage w), []).

Definition read_storage {A} (query : gmap string item -> A) : M A :=
  fun w => (Return (query (localStorage w)), w, []).

Definition write_storage {A}
    (update : gmap string item -> A * gmap string item) : M A :=
  fun w =>
    let '(a, ls) := update (localStorage w) in (Return a, World (this w) ls, []).

(** [await] of a fetch promise: the request has been sent either way. *)
Definition await_fetch (req : http_request) (o : fetch_outcome) : M response :=
  fun w =>
    (match o with
     | Rejects message => Throw message
     | Responds r => Return r
     end, w, [req]).

(** [await response.json()]. *)
Definition json (r : response) : M value :=
  lift (match r with
        | NotJson message => Throw message
        | JsonBody data => Return data
        end).

Declare Scope js_scope.
Delimit Scope js_scope with js.
Notation "x <- c ;; k" := (bind c (fun x => k))
  (at level 100, c at next level, k at level 200, right associativity)
  : js_scope.
Notation "c ;; k" := (bind c (fun _ => k))
  (at level 100, k at level 200, right associativity) : js_scope.
Local Open Scope js_scope.

(** [a && b], where evaluating [b] may throw. *)
Definition and_then (a : value) (b : M value) : M value :=
  if truthy a then b else ret a.

Definition init (customBaseURL : value) : M unit :=
  (if truthy customBaseURL then write (set_baseURL customBaseURL)
   else ret tt) ;;
  stored <- read_storage (Utils.getLocalStorage "api_credentials" (Obj [])) ;;
  stored_token <- lift (get stored "token") ;;
  both <- and_then stored_token (lift (get stored "secret")) ;;
  if truthy both then
    stored_token <- lift (get stored "token") ;;
    write (set_token stored_token) ;;
    stored_secret <- lift (get stored "secret") ;;
    write (set_secret stored_secret) ;;
    stored_authTime <- lift (get stored "authTime") ;;
    write (set_authTime stored_authTime)
  else ret tt.

(** [salt] is a string in every call the client makes, so that both [+]
    are string concatenations. *)
Definition generateSignature (salt : string) (token secret : value) : string :=
  let data := concat (concat salt token) secret in
  toLowerCase (Sha1.toString (Sha1.SHA1 data)).

(** The salt and the signature [buildParams] computes before it merges. *)
Definition fresh_salt (e : env) : string := number_toString (Date_now e).

Definition fresh_sign (e : env) (st : state) : string :=
  generateSignature (fresh_salt e) (token st) (secret st).

(** The object literal [baseParams] of [buildParams]. *)
Definition baseParams (sign salt : string) (this_token : value) : object :=
  [ ("sign", Str sign);
    ("salt", Str salt);
    ("token", this_token);
    ("i18n", Str "en_US");
    ("lang", Str "en_US");
    ("source", Str "android");
    ("_app_client_", Str "android");
    ("_app_id_", Str "com.eybond.smartclient.ess");
    ("_app_version_", Str "3.43.0.1") ]%string.

Definition buildParams (e : env) (params : object) : M object :=
  let salt := number_toString (Date_now e) in
  this_token <- read token ;;
  this_secret <- read secret ;;
  let sign := generateSignature salt this_token this_secret in
  ret (spread (baseParams sign salt this_token) params).

Definition request (e : env) (action : string) (params : object) : M value :=
  try_catch
    (requestParams <-
       buildParams e (spread [("action", Str action)]%string params) ;;
     let queryString := Utils.toQueryString requestParams in
     base <- read baseURL ;;
     let req :=
       HttpRequest "GET" (to_string base) queryString
         [("Accept", "application/json")]%string [] (Some 30000%Z) in
     response <- await_fetch req (Utils.fetchWithTimeout e req) ;;
     data <- json response ;;
     err <- lift (get data "err") ;;
     if strict_eq_zero err then
       dat <- lift (get data "dat") ;;
       desc <- lift (get data "desc") ;;
       ret (Obj [("success", Bool true); ("data", dat); ("message", desc)]%string)
     else
       desc <- lift (get data "desc") ;;
       dat <- lift (get data "dat") ;;
       ret (Obj [("success", Bool false);
                 ("error", or desc (Str "Unknown error"));
                 ("data", dat)]%string))
    (fun message =>
       ret (Obj [("success", Bool false);
                 ("error", or (Str message) (Str "Network error"))]%string)).

Definition login (e : env) (email password : value) : M value :=
  try_catch
    (base <- read baseURL ;;
     let req :=
       HttpRequest "POST" (to_string base) []
         [("Content-Type", "application/x-www-form-urlencoded");
          ("Accept", "application/json")]%string
         (Utils.toQueryString
            [("action", Str "authSource");
             ("usr", email);
             ("pwd", password);
             ("company-key", Str companyKey);
             ("source", Str "android")]%string)
         None in
     response <- await_fetch req (fetch e req) ;;
     data <- json response ;;
     err <- lift (get data "err") ;;
     accepted <-
       and_then (Bool (strict_eq_zero err)) (lift (get data "dat")) ;;
     if truthy accepted then
       dat <- lift (get data "dat") ;;
       tok <- lift (get dat "token") ;;
       sec <- lift (get dat "secret") ;;
       userid <- lift (get dat "userid") ;;
       write (set_token tok) ;;
       write (set_secret sec) ;;
       write (set_authTime (Num (Date_now e))) ;;
       this_authTime <- read authTime ;;
       write_storage
         (Utils.setLocalStorage e "api_credentials"
            (Obj [("token", tok);
                  ("secret", sec);
                  ("authTime", this_authTime);
                  ("userid", userid);
                  ("email", email)]%string)) ;;
       ret (Obj [("success", Bool true); ("data", dat)]%string)
     else
       desc <- lift (get data "desc") ;;
       ret (Obj [("success", Bool false);
                 ("error", or desc (Str "Login failed"))]%string))
    (fun message =>
       ret (Obj [("success", Bool false);
                 ("error", or (Str message) (Str "Login failed"))]%string)).

Definition logout : M unit :=
  write (set_token Null) ;;
  write (set_secret Null) ;;
  write (set_authTime Null) ;;
  write_storage (Utils.removeLocalStorage "api_credentials") ;;
  ret tt.

Definition getAccountInfo (e : env) : M value :=
  request e "queryAccountInfo" [].

Definition getPlantInfo (e : env) (plantId : value) : M value :=
  request e "queryPlantInfo" [("plantid", plantId)]%string.

Definition getDeviceLastData (e : env) (pn devcode devaddr sn : value)
    : M value :=
  request e "querySPDeviceLastData"
    [("pn", pn); ("devcode", devcode); ("devaddr", devaddr); ("sn", sn)]%string.

Definition getDeviceKeyParameters (e : env) (devcode : value) : M value :=
  request e "querySPKeyParameters" [("devcode", devcode)]%string.

Definition getDeviceOneDayHistory (e : env)
    (pn devcode devaddr sn parameter date : value) : M value :=
  request e "querySPDeviceKeyParameterOneDay"
    [("pn", pn); ("devcode", devcode); ("devaddr", devaddr); ("sn", sn);
     ("parameter", parameter); ("date", date)]%string.

Definition getDeviceChartFields (e : env) (devcode : value) : M value :=
  request e "queryDeviceChartsFieldsEs" [("devcode", devcode)]%string.

Definition getCollectorStatus (e : env) (pn : value) : M value :=
  request e "queryCollectorDevicesStatus" [("pn", pn)]%string.

Definition getDeviceControlFields (e : env) (pn devcode devaddr sn : value)
    : M value :=
  request e "webQueryDeviceCtrlField"
    [("pn", pn); ("devcode", devcode); ("devaddr", devaddr); ("sn", sn)]%string.

Definition controlDevice (e : env) (pn devcode devaddr sn id val : value)
    : M value :=
  request e "ctrlDevice"
    [("pn", pn); ("devcode", devcode); ("devaddr", devaddr); ("sn", sn);
     ("id", id); ("val", val)]%string.

Definition isAuthenticated : M bool :=
  read (fun st => truthy (token st) && truthy (secret st)).

Definition getStoredCredentials : M value :=
  read_storage (Utils.getLocalStorage "api_credentials" (Obj [])).

Definition clearStoredCredentials : M unit := logout.

End API.

(** ** Running a method *)

Definition outcome {A} (m : API.M A) (w : API.world) : completion A :=
  fst (fst (m w)).

Definition world_after {A} (m : API.M A) (w : API.world) : API.world :=
  snd (fst (m w)).

Definition requests_sent {A} (m : API.M A) (w : API.world)
    : list http_request :=
  snd (m w).

(** ** The signature as the vendor protocol words it

    The lowercase hexadecimal representation of a digest: its twenty bytes,
    most significant first, each written as two digits of
    [0123456789abcdef]. *)
Module Protocol.
Local Open Scope Z_scope.

Definition digest_bytes (h : Sha1.hash) : list Z :=
  flat_map
    (fun w => [w / 2 ^ 24 mod 256; w / 2 ^ 16 mod 256; w / 2 ^ 8 mod 256;
               w mod 256])
    [Sha1.h0 h; Sha1.h1 h; Sha1.h2 h; Sha1.h3 h; Sha1.h4 h].

Definition lower_hex_digit (n : Z) : ascii :=
  if n <? 10 then ascii_of_N (Z.to_N (48 + n))
  else ascii_of_N (Z.to_N (97 + (n - 10))).

Definition lower_hex (bytes : list Z) : string :=
  string_of_list_ascii
    (flat_map (fun b => [lower_hex_digit (b / 16); lower_hex_digit (b mod 16)])
              bytes).

Definition sha1_hex (data : string) : string :=
  lower_hex (digest_bytes (Sha1.SHA1 data)).

Definition is_lower_hex (c : ascii) : bool :=
  let n := nat_of_ascii c in
  ((48 <=? n) && (n <=? 57) || (97 <=? n) && (n <=? 102))%nat.

End Protocol.

(** ** Sequences of calls on the client *)

Inductive call :=
| Init (customBaseURL : value)
| Login (e : env) (email password : value)
| Logout
| Request (e : env) (action : string) (params : object).

Definition step (w : API.world) (c : call) : API.world :=
  match c with
  | Init customBaseURL => world_after (API.init customBaseURL) w
  | Login e email password => world_after (API.login e email password) w
  | Logout => world_after API.logout w
  | Request e action params => world_after (API.request e action params) w
  end.

Definition run (calls : list call) (w : API.world) : API.world :=
  fold_left step calls w.

(** The page has evaluated the object literal; [storage] is what earlier
    visits left in [localStorage]. *)
Definition page (storage : gmap string item) : API.world :=
  API.World API.initial storage.

(** A credential is present when the client's own tests ([init],
    [isAuthenticated]) take it for one. *)
Definition session_paired (w : API.world) : Prop :=
  truthy (API.token (API.this w)) = truthy (API.secret (API.this w)).

(** The payload of a login reply carries a token and a secret together or
    neither of them. *)
Definition payload_paired (data : value) : bool :=
  match get data "dat" with
  | Return dat =>
      match get dat "token", get dat "secret" with
      | Return tok, Return sec => Bool.eqb (truthy tok) (truthy sec)
      | _, _ => true
      end
  | Throw _ => true
  end.

Definition server_pairs_credentials (c : call) : Prop :=
  match c with
  | Login e _ _ =>
      forall req data,
        fetch e req = Responds (JsonBody data) -> payload_paired data = true
  | _ => True
  end.

(** No session in memory and none persisted. *)
Definition signed_out (w : API.world) : Prop :=
  API.token (API.this w) = Null
  /\ API.secret (API.this w) = Null
  /\ API.authTime (API.this w) = Null
  /\ API.localStorage w !! "api_credentials"%string = None.

(** The parameters [buildParams] returns. *)
Definition built (e : env) (params : object) (w : API.world) : object :=
  match outcome (API.buildParams e params) w with
  | Return requestParams => requestParams
  | Throw _ => []
  end.

(** The requests the client hands to [fetch]. *)
Definition get_request (e : env) (action : string) (params : object)
    (w : API.world) : http_request :=
  HttpRequest "GET" (to_string (API.baseURL (API.this w)))
    (Utils.toQueryString
       (built e (spread [("action", Str action)]%string params) w))
    [("Accept", "application/json")]%string [] (Some 30000%Z).

Definition login_request (email password : value) (w : API.world)
    : http_request :=
  HttpRequest "POST" (to_string (API.baseURL (API.this w))) []
    [("Content-Type", "application/x-www-form-urlencoded");
     ("Accept", "application/json")]%string
    [("action", "authSource");
     ("usr", to_string email);
     ("pwd", to_string password);
     ("company-key", API.companyKey);
     ("source", "android")]%string
    None.

(** Environments used in the examples: a server that answers every request
    with [reply] in time, and a network on which nothing settles before the
    timer does. *)
Definition answering (now : Z) (reply : fetch_outcome) : env :=
  Env now (fun _ => reply) (fun _ => true) true.

Definition timing_out (now : Z) : env :=
  Env now (fun _ => Rejects "Failed to fetch") (fun _ => false) true.

Definition envelope (err : Z) (desc : string) (dat : value) : value :=
  Obj [("err", Num err); ("desc", Str desc); ("dat", dat)]%string.

Definition replying (now : Z) (data : value) : env :=
  answering now (Responds (JsonBody data)).

(** The clock, the user and the servers of the worked examples. *)
Definition clock : Z := 1700000000000.

Definition user_email : value := Str "user@example.com".

Definition user_password : value := Str "secret".

Definition session_payload : object :=
  [("token", Str "T"); ("secret", Str "S"); ("userid", Str "U1")]%string.

Definition accepting : env :=
  replying clock (envelope 0 "ok" (Obj session_payload)).

Definition accepting_without_secret : env :=
  replying clock (envelope 0 "ok" (Obj [("token", Str "T")]%string)).

Definition refusing (desc : string) : env :=
  replying clock (envelope 1 desc Null).

Definition serving : env := replying clock (envelope 0 "ERR_NONE" Null).

Definition unreachable : env := timing_out clock.

(** ** Calls that can be converted

    [request] converts the base URL, the token and the secret of the
    client and every parameter to a string before it reaches [fetch]. *)
Definition client_converts (w : API.world) : bool :=
  convertible (API.baseURL (API.this w))
  && convertible (API.token (API.this w))
  && convertible (API.secret (API.this w)).

Definition params_convert (params : object) : bool :=
  forallb (fun kv => convertible (snd kv)) params.

(** [result] is what [request] makes of the reply to [req]: of an
    envelope, a success with [dat] and [desc] when [err] is 0 and a
    failure with [desc], or "Unknown error", and [dat] otherwise; of a
    fetch that rejects or times out and of a body that is not JSON, a
    failure with the message of the error, or "Network error". *)
Definition decodes_reply (e : env) (req : http_request)
    (result : completion value) : Prop :=
  (forall fields,
     Utils.fetchWithTimeout e req = Responds (JsonBody (Obj fields)) ->
     result
     = Return
         (if strict_eq_zero (field "err" fields) then
            Obj [("success", Bool true);
                 ("data", field "dat" fields);
                 ("message", field "desc" fields)]%string
          else
            Obj [("success", Bool false);
                 ("error",
                  if truthy (field "desc" fields) then field "desc" fields
                  else Str "Unknown error");
                 ("data", field "dat" fields)]%string))
  /\ (forall message,
        Utils.fetchWithTimeout e req = Rejects message
        \/ Utils.fetchWithTimeout e req = Responds (NotJson message) ->
        result
        = Return
            (Obj [("success", Bool false);
                  ("error",
                   if truthy (Str message) then Str message
                   else Str "Network error")]%string)).

(** ** JSON values

    The values [JSON.parse] returns: no [undefined] anywhere inside. *)
Fixpoint is_json (v : value) : bool :=
  match v with
  | Undefined => false
  | Arr items => forallb is_json items
  | Obj fields =>
      (fix all_json (fs : list (string * value)) : bool :=
         match fs with
         | [] => true
         | (_, x) :: rest => is_json x && all_json rest
         end) fields
  | _ => true
  end.

(** A page load: the script of [api.js] runs to its last line,
    [API.init()], on what [localStorage] holds. *)
Definition reload (storage : gmap string item) : API.world :=
  world_after (API.init Null) (page storage).

(** ** js/devices.js: sending a control command *)
Module Devices.
Import API.
Local Open Scope js_scope.

(** The fields of the [Devices] object. *)
Record state := State {
  devices : value;
  selectedDevice : value;
  lastDataCache : object
}.

(** A call of [Utils.showToast(message, type)]. *)
Definition toast : Type := string * string.

(** [sendControl] returns the [Devices] object it leaves behind and the
    toasts it showed.  It can throw only while it reads the identifiers of
    [device] for the first time, before it has changed anything.  The
    assignment to [lastDataCache[device.sn]] is that of an own property,
    as it is for every serial number but [__proto__]. *)
Definition sendControl (e_control e_read : env) (device fieldId val : value)
    (view : state) : M (state * list toast) :=
  pn <- lift (get device "pn") ;;
  devcode <- lift (get device "devcode") ;;
  devaddr <- lift (get device "devaddr") ;;
  sn <- lift (get device "sn") ;;
  response <- controlDevice e_control pn devcode devaddr sn fieldId val ;;
  success <- lift (get response "success") ;;
  if truthy success then
    let toasts := [("Control command sent successfully", "success")]%string in
    pn <- lift (get device "pn") ;;
    devcode <- lift (get device "devcode") ;;
    devaddr <- lift (get device "devaddr") ;;
    sn <- lift (get device "sn") ;;
    dataResponse <- getDeviceLastData e_read pn devcode devaddr sn ;;
    refreshed <- lift (get dataResponse "success") ;;
    if truthy refreshed then
      sn <- lift (get device "sn") ;;
      data <- lift (get dataResponse "data") ;;
      ret (State (devices view) (selectedDevice view)
             (set_field (to_string sn) data (lastDataCache view)),
           toasts)
    else ret (view, toasts)
  else
    error <- lift (get response "error") ;;
    ret (view,
         [(concat "Failed to send control command: " error, "error")]%string).

End Devices.

(** A device and an empty devices view for the worked examples. *)
Definition inverter : object :=
  [("pn", Str "Q0001"); ("devcode", Num 2451); ("devaddr", Num 1);
   ("sn", Str "SN-1")]%string.

Definition empty_view : Devices.state := Devices.State (Arr []) Null [].

(** The data methods of the client, each with the action it names, on
    arbitrary arguments. *)
Definition data_methods (e : env) (pn devcode devaddr sn parameter date
                         plantId id val : value)
    : list (string * API.M value) :=
  [("queryAccountInfo", API.getAccountInfo e);
   ("queryPlantInfo", API.getPlantInfo e plantId);
   ("querySPDeviceLastData", API.getDeviceLastData e pn devcode devaddr sn);
   ("querySPKeyParameters", API.getDeviceKeyParameters e devcode);
   ("querySPDeviceKeyParameterOneDay",
    API.getDeviceOneDayHistory e pn devcode devaddr sn parameter date);
   ("queryDeviceChartsFieldsEs", API.getDeviceChartFields e devcode);
   ("queryCollectorDevicesStatus", API.getCollectorStatus e pn);
   ("webQueryDeviceCtrlField",
    API.getDeviceControlFields e pn devcode devaddr sn);
   ("ctrlDevice", API.controlDevice e pn devcode devaddr sn id val)]%string.

(** ** Tactics for running a method *)

Arguments API.generateSignature : simpl never.
Arguments number_toString : simpl never.
Arguments to_string : simpl never.

Ltac unfold_method :=
  unfold API.request, API.login, API.logout, API.init, API.buildParams,
    API.and_then, API.try_catch, API.bind, API.read, API.write, API.ret,
    API.lift, API.read_storage, API.write_storage, API.await_fetch, API.json.

Ltac run_method :=
  unfold requests_sent, world_after, outcome; unfold_method;
  unfold Utils.setLocalStorage, Utils.removeLocalStorage; cbn.

(** Name the request record a method has built. *)
Ltac fold_request r :=
  repeat match goal with
         | |- context [HttpRequest ?m ?u ?q ?h ?b ?t] =>
             progress change (HttpRequest m u q h b t) with r
         end.

(** Case analysis on what the environment and the server supply. *)
Ltac case_outcome :=
  match goal with
  | |- context [match ?x with Rejects _ => _ | Responds _ => _ end] =>
      destruct x
  | |- context [match ?x with NotJson _ => _ | JsonBody _ => _ end] =>
      destruct x
  | |- context [get ?v ?k] => destruct (get v k)
  | |- context [if ?b then _ else _] => destruct b
  end; cbn.

Ltac destruct_matches := repeat case_outcome.

(** ** Properties of the signature *)

Lemma append_assoc (a b c : string) :
  ((a ++ b) ++ c = a ++ (b ++ c))%string.
Proof.
  induction a as [|x a IH]; [reflexivity |].
  change (String x ((a ++ b) ++ c) = String x (a ++ (b ++ c)))%string.
  now f_equal.
Qed.

Lemma toLowerCase_of_list (l : list ascii) :
  toLowerCase (string_of_list_ascii l) = string_of_list_ascii (map lower_ascii l).
Proof. induction l as [|c l IH]; simpl; [reflexivity | now rewrite IH]. Qed.

Lemma hex_digit_protocol (n : Z) :
  (0 <= n < 16)%Z -> Sha1.hex_digit n = Protocol.lower_hex_digit n.
Proof.
  intros Hn.
  assert (Hcases : In n [0; 1; 2; 3; 4; 5; 6; 7; 8; 9; 10; 11; 12; 13; 14; 15]%Z).
  { simpl. lia. }
  simpl in Hcases.
  repeat (destruct Hcases as [<- | Hcases]; [reflexivity |]).
  contradiction.
Qed.

Lemma hex_digit_lower (n : Z) :
  (0 <= n < 16)%Z ->
  lower_ascii (Sha1.hex_digit n) = Sha1.hex_digit n
  /\ Protocol.is_lower_hex (Sha1.hex_digit n) = true.
Proof.
  intros Hn.
  assert (Hcases : In n [0; 1; 2; 3; 4; 5; 6; 7; 8; 9; 10; 11; 12; 13; 14; 15]%Z).
  { simpl. lia. }
  simpl in Hcases.
  repeat (destruct Hcases as [<- | Hcases]; [split; reflexivity |]).
  contradiction.
Qed.

Lemma byte_of_word (w k : Z) :
  (0 <= k)%Z ->
  (0 <= Z.land (Z.shiftr w k) 0xff < 256)%Z
  /\ Z.land (Z.shiftr w k) 0xff = (w / 2 ^ k mod 256)%Z.
Proof.
  intros Hk. change 0xff%Z with (Z.ones 8).
  rewrite Z.land_ones by lia. rewrite Z.shiftr_div_pow2 by lia.
  change (2 ^ 8)%Z with 256%Z. split; [apply Z.mod_pos_bound; lia | reflexivity].
Qed.

Lemma nibbles_of_byte (b : Z) :
  (0 <= b < 256)%Z ->
  (0 <= Z.shiftr b 4 < 16)%Z /\ Z.shiftr b 4 = (b / 16)%Z
  /\ (0 <= Z.land b 0x0f < 16)%Z /\ Z.land b 0x0f = (b mod 16)%Z.
Proof.
  intros Hb. change 0x0f%Z with (Z.ones 4).
  rewrite Z.land_ones by lia. rewrite Z.shiftr_div_pow2 by lia.
  change (2 ^ 4)%Z with 16%Z.
  repeat split; try apply Z.mod_pos_bound; try lia.
  - apply Z.div_pos; lia.
  - apply Z.div_lt_upper_bound; lia.
Qed.

Lemma hex_of_byte_protocol (w k : Z) :
  (0 <= k)%Z ->
  Sha1.hex_of_byte (Z.land (Z.shiftr w k) 0xff)
  = [Protocol.lower_hex_digit ((w / 2 ^ k mod 256) / 16);
     Protocol.lower_hex_digit ((w / 2 ^ k mod 256) mod 16)]%Z.
Proof.
  intros Hk. destruct (byte_of_word w k Hk) as [Hrange Heq].
  destruct (nibbles_of_byte _ Hrange) as (Hhi & Ehi & Hlo & Elo).
  unfold Sha1.hex_of_byte.
  rewrite (hex_digit_protocol _ Hhi), (hex_digit_protocol _ Hlo).
  now rewrite Ehi, Elo, Heq.
Qed.

Lemma hex_of_byte_lower (w k : Z) :
  (0 <= k)%Z ->
  Forall (fun c => lower_ascii c = c /\ Protocol.is_lower_hex c = true)
         (Sha1.hex_of_byte (Z.land (Z.shiftr w k) 0xff)).
Proof.
  intros Hk. destruct (byte_of_word w k Hk) as [Hrange _].
  destruct (nibbles_of_byte _ Hrange) as (Hhi & _ & Hlo & _).
  unfold Sha1.hex_of_byte.
  repeat constructor; now apply hex_digit_lower.
Qed.

Lemma hex_of_word_protocol (w : Z) :
  Sha1.hex_of_word w
  = flat_map
      (fun b => [Protocol.lower_hex_digit (b / 16);
                 Protocol.lower_hex_digit (b mod 16)])
      [w / 2 ^ 24 mod 256; w / 2 ^ 16 mod 256; w / 2 ^ 8 mod 256; w mod 256]%Z.
Proof.
  unfold Sha1.hex_of_word. cbn [flat_map app].
  rewrite !hex_of_byte_protocol by lia.
  change (2 ^ (24 - 3 * 8))%Z with 1%Z. rewrite Z.div_1_r. reflexivity.
Qed.

Lemma hex_of_word_lower (w : Z) :
  Forall (fun c => lower_ascii c = c /\ Protocol.is_lower_hex c = true)
         (Sha1.hex_of_word w).
Proof.
  unfold Sha1.hex_of_word. apply Forall_flat_map.
  repeat (constructor; [apply hex_of_byte_lower; lia |]). constructor.
Qed.

Lemma flat_map_app_l {A B} (g : A -> list B) (l1 l2 : list A) :
  flat_map g (l1 ++ l2) = flat_map g l1 ++ flat_map g l2.
Proof.
  induction l1 as [|x l1 IH]; simpl; [reflexivity |].
  now rewrite IH, app_assoc.
Qed.

Lemma toString_protocol (h : Sha1.hash) :
  Sha1.toString h = Protocol.lower_hex (Protocol.digest_bytes h).
Proof.
  unfold Sha1.toString, Protocol.lower_hex, Protocol.digest_bytes. f_equal.
  cbn [flat_map]. rewrite !flat_map_app_l, !hex_of_word_protocol.
  reflexivity.
Qed.

Lemma toString_chars (h : Sha1.hash) :
  Forall (fun c => lower_ascii c = c /\ Protocol.is_lower_hex c = true)
         (flat_map Sha1.hex_of_word
            [Sha1.h0 h; Sha1.h1 h; Sha1.h2 h; Sha1.h3 h; Sha1.h4 h]).
Proof.
  apply Forall_flat_map.
  repeat (constructor; [apply hex_of_word_lower |]). constructor.
Qed.

Lemma toString_lowercase (h : Sha1.hash) :
  toLowerCase (Sha1.toString h) = Sha1.toString h.
Proof.
  unfold Sha1.toString. rewrite toLowerCase_of_list. f_equal.
  pose proof (toString_chars h) as Hall.
  induction Hall as [|c l [Hc _] _ IH]; simpl; [reflexivity |].
  now rewrite Hc, IH.
Qed.

Lemma toString_length (h : Sha1.hash) : String.length (Sha1.toString h) = 40.
Proof. reflexivity. Qed.

Lemma generateSignature_hex (salt : string) (tok sec : value) :
  API.generateSignature salt tok sec
  = Protocol.sha1_hex (salt ++ to_string tok ++ to_string sec).
Proof.
  unfold API.generateSignature, concat, Protocol.sha1_hex.
  rewrite append_assoc, toString_lowercase. apply toString_protocol.
Qed.

Lemma sha1_hex_chars (data : string) :
  String.length (Protocol.sha1_hex data) = 40
  /\ Forall (fun c => Protocol.is_lower_hex c = true)
            (list_ascii_of_string (Protocol.sha1_hex data)).
Proof.
  unfold Protocol.sha1_hex. rewrite <- toString_protocol.
  generalize (Sha1.SHA1 data). intros h.
  split; [apply toString_length |].
  unfold Sha1.toString. rewrite list_ascii_of_string_of_list_ascii.
  eapply List.Forall_impl; [| apply toString_chars]. now intros c [_ Hc].
Qed.

(** C1. For all strings [salt], [token] and [secret],
    [API.generateSignature] returns the lowercase hexadecimal SHA-1 digest
    of [salt + token + secret]: forty characters, each one of
    [0123456789abcdef].  The operation is a total function of its three
    arguments: it has no error outcome and its result depends on nothing
    else. *)
Theorem generateSignature_is_sha1_hex (salt token secret : string) :
  let sign := API.generateSignature salt (Str token) (Str secret) in
  sign = Protocol.sha1_hex (salt ++ token ++ secret)
  /\ String.length sign = 40
  /\ Forall (fun c => Protocol.is_lower_hex c = true)
            (list_ascii_of_string sign).
Proof.
  cbv zeta. rewrite generateSignature_hex. cbn [to_string].
  split; [reflexivity | apply sha1_hex_chars].
Qed.

(** SHA-1 on the test vectors of FIPS 180. *)
Example sha1_abc :
  Sha1.toString (Sha1.SHA1 "abc") = "a9993e364706816aba3e25717850c26c9cd0d89d"%string.
Proof. vm_compute. reflexivity. Qed.

Example sha1_empty :
  Sha1.toString (Sha1.SHA1 "") = "da39a3ee5e6b4b0d3255bfef95601890afd80709"%string.
Proof. vm_compute. reflexivity. Qed.

Example sha1_two_blocks :
  Sha1.toString
    (Sha1.SHA1 "abcdbcdecdefdefgefghfghighijhijkijkljklmklmnlmnomnopnopq")
  = "84983e441c3bd26ebaae4aa1f95129e5e54670f1"%string.
Proof. vm_compute. reflexivity. Qed.

Example generateSignature_sample :
  API.generateSignature "1700000000000" (Str "T") (Str "S")
  = "dafa73d864cfa9228e6764d281ce5727ad952216"%string.
Proof. vm_compute. reflexivity. Qed.

(** ** Running the methods

    The lemmas of this section run the definitions above.  What they say
    of the request a call sends is said of the code for a client and
    parameters that can be converted to strings ([client_converts],
    [params_convert]), where [to_string] is the conversion JavaScript
    makes; the theorems that state that a request goes out carry these as
    hypotheses. *)

Lemma buildParams_runs (e : env) (params : object) (w : API.world) :
  API.buildParams e params w = (Return (built e params w), w, []).
Proof. reflexivity. Qed.

Lemma request_sends (e : env) (action : string) (params : object)
    (w : API.world) :
  requests_sent (API.request e action params) w
  = [get_request e action params w]
  /\ world_after (API.request e action params) w = w.
Proof.
  run_method. fold_request (get_request e action params w).
  destruct_matches; split; reflexivity.
Qed.


Lemma request_decodes (e : env) (action : string) (params : object)
    (w : API.world) (fields : object) :
  Utils.fetchWithTimeout e (get_request e action params w)
  = Responds (JsonBody (Obj fields)) ->
  outcome (API.request e action params) w
  = Return
      (if strict_eq_zero (field "err" fields) then
         Obj [("success", Bool true);
              ("data", field "dat" fields);
              ("message", field "desc" fields)]%string
       else
         Obj [("success", Bool false);
              ("error", or (field "desc" fields) (Str "Unknown error"));
              ("data", field "dat" fields)]%string).
Proof.
  intros H. run_method. fold_request (get_request e action params w).
  rewrite H. cbn.
  destruct (strict_eq_zero (field "err" fields)); reflexivity.
Qed.

Lemma strict_eq_zero_spec (v : value) : strict_eq_zero v = true <-> v = Num 0.
Proof.
  split; [| now intros ->].
  destruct v as [| |b|n|s|l|o]; try discriminate.
  destruct n; [reflexivity | discriminate | discriminate].
Qed.

Lemma login_sends (e : env) (email password : value) (w : API.world) :
  requests_sent (API.login e email password) w
  = [login_request email password w].
Proof.
  run_method. fold_request (login_request email password w).
  destruct_matches; reflexivity.
Qed.

(** What a login leaves behind: the world it found, or the credentials of
    an accepted reply. *)
Lemma login_world (e : env) (email password : value) (w : API.world) :
  world_after (API.login e email password) w = w
  \/ exists data dat tok sec userid,
       fetch e (login_request email password w) = Responds (JsonBody data)
       /\ get data "err" = Return (Num 0)
       /\ get data "dat" = Return dat /\ truthy dat = true
       /\ get dat "token" = Return tok
       /\ get dat "secret" = Return sec
       /\ get dat "userid" = Return userid
       /\ world_after (API.login e email password) w
          = API.World
              (API.State (API.baseURL (API.this w)) tok sec
                 (Num (Date_now e)))
              (snd (Utils.setLocalStorage e "api_credentials"
                      (Obj [("token", tok); ("secret", sec);
                            ("authTime", Num (Date_now e));
                            ("userid", userid); ("email", email)]%string)
                      (API.localStorage w))).
Proof.
  run_method. fold_request (login_request email password w).
  destruct (fetch e (login_request email password w)) as [m | [m | data]];
    cbn; try (left; reflexivity).
  destruct (get data "err") as [err |] eqn:Eerr; cbn; [| left; reflexivity].
  destruct (strict_eq_zero err) eqn:Ezero; cbn;
    [| destruct (get data "desc"); left; reflexivity].
  destruct (get data "dat") as [dat |] eqn:Edat; cbn; [| left; reflexivity].
  destruct (truthy dat) eqn:Edat_truthy; cbn;
    [| destruct (get data "desc"); left; reflexivity].
  apply strict_eq_zero_spec in Ezero. subst err.
  destruct (get dat "token") as [tok |] eqn:Etok; cbn; [| left; reflexivity].
  destruct (get dat "secret") as [sec |] eqn:Esec; cbn; [| left; reflexivity].
  destruct (get dat "userid") as [userid |] eqn:Euid; cbn;
    [| left; reflexivity].
  right. exists data, dat, tok, sec, userid.
  repeat (split; [assumption || reflexivity |]).
  unfold Utils.setLocalStorage. destruct (setItem_succeeds e); reflexivity.
Qed.

Lemma login_rejected (e : env) (email password : value) (w : API.world)
    (message : string) :
  fetch e (login_request email password w) = Rejects message
  \/ fetch e (login_request email password w) = Responds (NotJson message) ->
  API.login e email password w
  = (Return (Obj [("success", Bool false);
                  ("error", or (Str message) (Str "Login failed"))]%string),
     w, [login_request email password w]).
Proof.
  intros H. run_method. fold_request (login_request email password w).
  destruct H as [-> | ->]; reflexivity.
Qed.

Lemma login_refused (e : env) (email password : value) (w : API.world)
    (fields : object) :
  fetch e (login_request email password w) = Responds (JsonBody (Obj fields)) ->
  strict_eq_zero (field "err" fields) && truthy (field "dat" fields) = false ->
  API.login e email password w
  = (Return (Obj [("success", Bool false);
                  ("error", or (field "desc" fields) (Str "Login failed"))]%string),
     w, [login_request email password w]).
Proof.
  intros H Hguard. run_method. fold_request (login_request email password w).
  rewrite H. cbn.
  destruct (strict_eq_zero (field "err" fields)); cbn; [| reflexivity].
  cbn in Hguard. now rewrite Hguard.
Qed.

Lemma login_accepted (e : env) (email password : value) (w : API.world)
    (fields payload : object) :
  fetch e (login_request email password w) = Responds (JsonBody (Obj fields)) ->
  field "err" fields = Num 0 ->
  field "dat" fields = Obj payload ->
  API.login e email password w
  = (Return (Obj [("success", Bool true); ("data", Obj payload)]%string),
     API.World
       (API.State (API.baseURL (API.this w)) (field "token" payload)
          (field "secret" payload) (Num (Date_now e)))
       (snd (Utils.setLocalStorage e "api_credentials"
               (Obj [("token", field "token" payload);
                     ("secret", field "secret" payload);
                     ("authTime", Num (Date_now e));
                     ("userid", field "userid" payload);
                     ("email", email)]%string)
               (API.localStorage w))),
     [login_request email password w]).
Proof.
  intros H Herr Hdat. run_method.
  fold_request (login_request email password w).
  rewrite H. cbn. rewrite Herr, Hdat. cbn.
  destruct (setItem_succeeds e); reflexivity.
Qed.

(** ** Decoding the response envelope *)

(** C2, as the code has it.  For every envelope a request decodes, the
    result is a success exactly when [err] is the number 0; a success
    carries [dat] as its data (whatever it is, [null] included); a failure
    carries [desc] as its error when [desc] is truthy and the fixed text
    "Unknown error" when it is empty or missing, and carries [dat] too. *)
Theorem envelope_decoding (e : env) (action : string) (params : object)
    (w : API.world) (req : http_request) (fields : object) :
  In req (requests_sent (API.request e action params) w) ->
  settles_in_time e req = true ->
  fetch e req = Responds (JsonBody (Obj fields)) ->
  exists result,
    outcome (API.request e action params) w = Return (Obj result)
    /\ (field "success" result = Bool true <-> field "err" fields = Num 0)
    /\ (field "err" fields = Num 0 ->
        field "data" result = field "dat" fields)
    /\ (field "err" fields <> Num 0 ->
        field "success" result = Bool false
        /\ field "error" result
           = (if truthy (field "desc" fields) then field "desc" fields
              else Str "Unknown error")
        /\ field "data" result = field "dat" fields).
Proof.
  intros Hsent Hintime Hreply.
  destruct (request_sends e action params w) as [Hreq _].
  rewrite Hreq in Hsent. destruct Hsent as [<- | []].
  assert (Hrace : Utils.fetchWithTimeout e (get_request e action params w)
                  = Responds (JsonBody (Obj fields))).
  { unfold Utils.fetchWithTimeout. now rewrite Hintime. }
  rewrite (request_decodes _ _ _ _ _ Hrace).
  destruct (strict_eq_zero (field "err" fields)) eqn:Ezero.
  - apply strict_eq_zero_spec in Ezero. eexists. split; [reflexivity |].
    cbn. repeat split; try congruence; auto.
  - assert (Hne : field "err" fields <> Num 0).
    { intros Heq. apply strict_eq_zero_spec in Heq. congruence. }
    eexists. split; [reflexivity |]. cbn.
    repeat split; try congruence; try contradiction; auto; discriminate.
Qed.

Lemma envelope_decoding_witness :
  exists result,
    outcome (API.request serving "queryAccountInfo" []) (page ∅)
    = Return (Obj result)
    /\ field "success" result = Bool true
    /\ field "data" result = Null.
Proof.
  destruct (envelope_decoding serving "queryAccountInfo" [] (page ∅)
              (get_request serving "queryAccountInfo" [] (page ∅))
              [("err", Num 0); ("desc", Str "ERR_NONE"); ("dat", Null)]%string)
    as (result & Hres & Hsucc & Hdata & _).
  - vm_compute. left. reflexivity.
  - reflexivity.
  - reflexivity.
  - exists result. split; [exact Hres |]. split.
    + apply Hsucc. reflexivity.
    + apply Hdata. reflexivity.
Defined.

(** C2, as stated, fails on a failure envelope whose [desc] is the empty
    string: the error of the result is "Unknown error", not [desc]. *)
Lemma failure_with_empty_desc :
  get (envelope 1 "" Null) "desc" = Return (Str "")
  /\ outcome (API.getAccountInfo (refusing "")) (page ∅)
     = Return (Obj [("success", Bool false);
                    ("error", Str "Unknown error");
                    ("data", Null)]%string)
  /\ Str "Unknown error" <> Str "".
Proof.
  split; [reflexivity |].
  split; [vm_compute; reflexivity | discriminate].
Qed.

(** ** Login *)

(** C3, as the code has it.  A reply with [err] 0 and an object payload
    puts the payload's token and secret into the client and, when the write
    to local storage succeeds, persists token, secret and user id together
    with the time and the e-mail address.  A reply with another [err]
    leaves client and storage as they were and the call returns a failure
    whose error is [desc] when that is truthy and "Login failed" otherwise;
    a fetch that rejects, or a body that is not JSON, does the same with
    the message of the error. *)
Theorem login_all_or_nothing (e : env) (email password : value)
    (w : API.world) (req : http_request) :
  In req (requests_sent (API.login e email password) w) ->
  let w' := world_after (API.login e email password) w in
  let result := outcome (API.login e email password) w in
  (forall fields payload,
     fetch e req = Responds (JsonBody (Obj fields)) ->
     field "err" fields = Num 0 ->
     field "dat" fields = Obj payload ->
     API.token (API.this w') = field "token" payload
     /\ API.secret (API.this w') = field "secret" payload
     /\ API.authTime (API.this w') = Num (Date_now e)
     /\ (setItem_succeeds e = true ->
         Utils.getLocalStorage "api_credentials" (Obj []) (API.localStorage w')
         = json_clone
             (Obj [("token", field "token" payload);
                   ("secret", field "secret" payload);
                   ("authTime", Num (Date_now e));
                   ("userid", field "userid" payload);
                   ("email", email)]%string))
     /\ result
        = Return (Obj [("success", Bool true); ("data", Obj payload)]%string))
  /\ (forall fields,
        fetch e req = Responds (JsonBody (Obj fields)) ->
        field "err" fields <> Num 0 ->
        w' = w
        /\ result
           = Return
               (Obj [("success", Bool false);
                     ("error",
                      if truthy (field "desc" fields) then field "desc" fields
                      else Str "Login failed")]%string))
  /\ (forall message,
        fetch e req = Rejects message
        \/ fetch e req = Responds (NotJson message) ->
        w' = w
        /\ result
           = Return
               (Obj [("success", Bool false);
                     ("error",
                      if truthy (Str message) then Str message
                      else Str "Login failed")]%string)).
Proof.
  intros Hsent w' result. subst w' result.
  rewrite login_sends in Hsent. destruct Hsent as [<- | []].
  unfold world_after, outcome. split; [| split].
  - intros fields payload Hreply Herr Hdat.
    rewrite (login_accepted _ _ _ _ _ _ Hreply Herr Hdat). cbn.
    repeat split. intros Hwrite.
    unfold Utils.setLocalStorage, Utils.getLocalStorage. rewrite Hwrite.
    cbn [snd]. rewrite lookup_insert_eq. reflexivity.
  - intros fields Hreply Herr.
    rewrite (login_refused _ _ _ _ _ Hreply); [split; reflexivity |].
    destruct (strict_eq_zero (field "err" fields)) eqn:Ezero; [| reflexivity].
    apply strict_eq_zero_spec in Ezero. contradiction.
  - intros message Hfail.
    rewrite (login_rejected _ _ _ _ _ Hfail). split; reflexivity.
Qed.

(** Scenario A: the server accepts the login of the user. *)
Lemma login_all_or_nothing_witness :
  API.token (API.this (world_after (API.login accepting user_email user_password)
                         (page ∅)))
  = Str "T"
  /\ API.secret (API.this (world_after
                             (API.login accepting user_email user_password)
                             (page ∅)))
     = Str "S"
  /\ Utils.getLocalStorage "api_credentials" (Obj [])
       (API.localStorage
          (world_after (API.login accepting user_email user_password) (page ∅)))
     = Obj [("token", Str "T"); ("secret", Str "S");
            ("authTime", Num clock); ("userid", Str "U1");
            ("email", user_email)]%string.
Proof.
  destruct (login_all_or_nothing accepting user_email user_password (page ∅)
              (login_request user_email user_password (page ∅)))
    as (Hok & _ & _).
  - vm_compute. left. reflexivity.
  - destruct (Hok [("err", Num 0); ("desc", Str "ok");
                   ("dat", Obj session_payload)]%string
                  session_payload)
      as (Htok & Hsec & _ & Hstored & _); try reflexivity.
    split; [exact Htok |]. split; [exact Hsec |].
    apply Hstored. reflexivity.
Defined.

(** C3, as stated, fails on a refusal whose [desc] is the empty string:
    the failure carries "Login failed", not the server's description. *)
Lemma login_refused_with_empty_desc :
  get (envelope 1 "" Null) "desc" = Return (Str "")
  /\ outcome (API.login (refusing "") user_email user_password) (page ∅)
     = Return (Obj [("success", Bool false);
                    ("error", Str "Login failed")]%string)
  /\ Str "Login failed" <> Str "".
Proof.
  split; [reflexivity |].
  split; [vm_compute; reflexivity | discriminate].
Qed.

(** Scenario B: the refusal is reported with its description and nothing
    is stored. *)
Example login_invalid_credentials :
  API.login (refusing "invalid credentials") user_email user_password (page ∅)
  = (Return (Obj [("success", Bool false);
                  ("error", Str "invalid credentials")]%string),
     page ∅,
     [login_request user_email user_password (page ∅)]).
Proof. reflexivity. Qed.

(** ** Merging objects *)

Lemma lookup_set_field_eq (k : string) (v : value) (o : object) :
  lookup_field k (set_field k v o) = Some v.
Proof.
  induction o as [| [k' v'] o IH]; cbn.
  - now rewrite String.eqb_refl.
  - destruct (String.eqb k k') eqn:E; cbn.
    + now rewrite String.eqb_refl.
    + now rewrite E.
Qed.

Lemma lookup_set_field_ne (k k' : string) (v : value) (o : object) :
  k <> k' -> lookup_field k (set_field k' v o) = lookup_field k o.
Proof.
  intros Hne. apply String.eqb_neq in Hne.
  induction o as [| [k1 v1] o IH]; cbn.
  - now rewrite Hne.
  - destruct (String.eqb k' k1) eqn:E; cbn.
    + apply String.eqb_eq in E. subst k1. now rewrite Hne.
    + now rewrite IH.
Qed.

(** A key the second object lacks keeps the value of the first. *)
Lemma lookup_spread_absent (k : string) (a b : object) :
  lookup_field k b = None -> lookup_field k (spread a b) = lookup_field k a.
Proof.
  unfold spread. revert a.
  induction b as [| [k1 v1] b IH]; intros a Habsent; cbn in *; [reflexivity |].
  destruct (String.eqb k k1) eqn:E; [discriminate |].
  rewrite IH by assumption.
  apply lookup_set_field_ne. now apply String.eqb_neq.
Qed.

Lemma lookup_field_not_In (k : string) (o : object) :
  ~ In k (map fst o) -> lookup_field k o = None.
Proof.
  induction o as [| [k1 v1] o IH]; cbn; [reflexivity |].
  intros Hnot. destruct (String.eqb k k1) eqn:E.
  - apply String.eqb_eq in E. exfalso. apply Hnot. left. now symmetry.
  - apply IH. intros Hin. apply Hnot. now right.
Qed.

(** A key of the second object takes its value from there. *)
Lemma lookup_spread_present (k : string) (v : value) (a b : object) :
  List.NoDup (map fst b) ->
  lookup_field k b = Some v -> lookup_field k (spread a b) = Some v.
Proof.
  unfold spread. revert a.
  induction b as [| [k1 v1] b IH]; intros a Hnodup Hpresent; cbn in *;
    [discriminate |].
  inversion Hnodup as [| ? ? Hfresh Hrest]; subst.
  destruct (String.eqb k k1) eqn:E.
  - apply String.eqb_eq in E. subst k1. injection Hpresent as ->.
    fold (spread (set_field k v a) b).
    rewrite lookup_spread_absent by now apply lookup_field_not_In.
    apply lookup_set_field_eq.
  - now apply IH.
Qed.

(** ** No retry, no session check, no validation *)

Lemma request_once (e : env) (action : string) (params : object)
    (w : API.world) :
  List.length (requests_sent (API.request e action params) w) = 1.
Proof. now destruct (request_sends e action params w) as [-> _]. Qed.




Lemma lookup_field_Some_In (k : string) (v : value) (o : object) :
  lookup_field k o = Some v -> In (k, v) o.
Proof.
  induction o as [| [k1 v1] o IH]; cbn; [discriminate |].
  destruct (String.eqb k k1) eqn:E.
  - apply String.eqb_eq in E. intros [= ->]. left. now subst.
  - intros H. right. now apply IH.
Qed.

Lemma built_eq (e : env) (params : object) (w : API.world) :
  built e params w
  = spread
      (API.baseParams (API.fresh_sign e (API.this w)) (API.fresh_salt e)
         (API.token (API.this w)))
      params.
Proof. reflexivity. Qed.

Lemma field_spread_absent (k : string) (a b : object) :
  lookup_field k b = None -> field k (spread a b) = field k a.
Proof. intros H. unfold field. now rewrite lookup_spread_absent. Qed.

Lemma field_spread_present (k : string) (v : value) (a b : object) :
  List.NoDup (map fst b) ->
  lookup_field k b = Some v -> field k (spread a b) = v.
Proof.
  intros Hnodup H. unfold field. now rewrite (lookup_spread_present k v).
Qed.

Lemma request_query (e : env) (action : string) (params : object)
    (w : API.world) (k : string) (v : value) :
  lookup_field k (built e (spread [("action", Str action)]%string params) w)
  = Some v ->
  In (k, to_string v) (query (get_request e action params w)).
Proof.
  intros H. apply lookup_field_Some_In in H.
  unfold get_request, Utils.toQueryString. cbn [query].
  now apply (in_map (fun kv => (fst kv, to_string (snd kv)))) in H.
Qed.

(** C5, as the code has it.  Building a request does not look for a
    session.  Whenever the token and the secret of the client can be
    converted to strings, as [null] can, [buildParams] returns its
    parameters and touches neither the client nor the network; when the
    base URL and the parameters of the caller can be converted as well,
    [request] hands its one request to [fetch], whatever the action.  With
    no session (token and secret [null]) and no token or signature
    supplied by the caller, the request carries the token [null] and the
    signature of the salt followed by "nullnull". *)
Theorem building_needs_no_session (e : env) (action : string)
    (params : object) (w : API.world) :
  (convertible (API.token (API.this w)) = true ->
   convertible (API.secret (API.this w)) = true ->
   API.buildParams e params w = (Return (built e params w), w, []))
  /\ (client_converts w = true ->
      params_convert params = true ->
      List.length (requests_sent (API.request e action params) w) = 1)
  /\ (API.token (API.this w) = Null ->
      API.secret (API.this w) = Null ->
      lookup_field "sign" params = None ->
      lookup_field "token" params = None ->
      API.buildParams e params w = (Return (built e params w), w, [])
      /\ field "token" (built e params w) = Null
      /\ field "sign" (built e params w)
         = Str (Protocol.sha1_hex (API.fresh_salt e ++ "nullnull"))
      /\ (forall req,
            In req (requests_sent (API.request e action params) w) ->
            In ("token", "null")%string (query req))
      /\ (convertible (API.baseURL (API.this w)) = true ->
          params_convert params = true ->
          List.length (requests_sent (API.request e action params) w) = 1)).
Proof.
  split; [reflexivity |]. split; [intros _ _; apply request_once |].
  intros Htok Hsec Hsign Htoken. split; [reflexivity |]. rewrite built_eq.
  rewrite !field_spread_absent by assumption.
  unfold API.fresh_sign. rewrite generateSignature_hex, Htok, Hsec.
  split; [reflexivity |]. split; [reflexivity |].
  split; [| intros _ _; apply request_once].
  intros req Hsent. destruct (request_sends e action params w) as [Hreq _].
  rewrite Hreq in Hsent. destruct Hsent as [<- | []].
  apply (request_query e action params w "token" Null).
  rewrite built_eq, lookup_spread_absent.
  - cbn. now rewrite Htok.
  - rewrite lookup_spread_absent by assumption. reflexivity.
Qed.

Lemma building_needs_no_session_witness :
  field "token" (built unreachable [] (page ∅)) = Null
  /\ field "sign" (built unreachable [] (page ∅))
     = Str "276b52de3adb1a14a9940a2e3d82f995f717a029"
  /\ List.length
       (requests_sent (API.request unreachable "queryAccountInfo" [])
          (page ∅))
     = 1.
Proof.
  destruct (building_needs_no_session unreachable "queryAccountInfo" []
              (page ∅))
    as (_ & Hgoes & Hnone).
  destruct Hnone as (_ & Htok & Hsign & _ & _); try reflexivity.
  split; [exact Htok |]. split.
  - transitivity
      (Str (Protocol.sha1_hex (API.fresh_salt unreachable ++ "nullnull")));
      [exact Hsign | vm_compute; reflexivity].
  - apply Hgoes; reflexivity.
Defined.

(** C5, as stated, fails with no session at all: [getAccountInfo] on the
    freshly loaded page is not refused before the network; its request is
    sent and the reply of the server is returned. *)
Lemma request_sent_without_session :
  outcome API.isAuthenticated (page ∅) = Return false
  /\ List.length (requests_sent (API.getAccountInfo serving) (page ∅)) = 1
  /\ outcome (API.getAccountInfo serving) (page ∅)
     = Return (Obj [("success", Bool true); ("data", Null);
                    ("message", Str "ERR_NONE")]%string).
Proof. repeat split; vm_compute; reflexivity. Qed.

(** ** Caller-supplied parameters *)

(** C6, as the code has it.  The caller's parameters are merged last and
    win.  Where the caller supplies no [sign] (no [salt]), the built
    request carries the signature (the salt) computed in this call; where
    the caller's object has a [sign] (a [salt]), the built request carries
    the caller's. *)
Theorem caller_params_take_precedence (e : env) (params : object)
    (w : API.world) (k : string) :
  k = "sign"%string \/ k = "salt"%string ->
  (lookup_field k params = None ->
   field k (built e params w)
   = field k [("sign", Str (API.fresh_sign e (API.this w)));
              ("salt", Str (API.fresh_salt e))]%string)
  /\ (forall v,
        List.NoDup (map fst params) ->
        lookup_field k params = Some v ->
        field k (built e params w) = v).
Proof.
  intros Hk. rewrite built_eq. split.
  - intros Habsent. rewrite field_spread_absent by assumption.
    destruct Hk as [-> | ->]; reflexivity.
  - intros v Hnodup Hpresent. now apply field_spread_present.
Qed.

Lemma caller_params_take_precedence_witness :
  field "sign" (built unreachable [("sn", Str "X1")]%string (page ∅))
  = Str (API.fresh_sign unreachable API.initial)
  /\ field "sign" (built unreachable [("sign", Str "forged")]%string (page ∅))
     = Str "forged".
Proof.
  split.
  - destruct (caller_params_take_precedence unreachable
                [("sn", Str "X1")]%string (page ∅) "sign")
      as [Habsent _]; [left; reflexivity |].
    apply Habsent. reflexivity.
  - destruct (caller_params_take_precedence unreachable
                [("sign", Str "forged")]%string (page ∅) "sign")
      as [_ Hpresent]; [left; reflexivity |].
    apply Hpresent; [| reflexivity].
    repeat constructor. simpl. intros [].
Defined.

(** C6, as stated, fails on a caller who supplies [sign] and [salt]: the
    request that goes out carries the caller's values, not the salt and the
    signature of this call. *)
Lemma caller_overrides_sign_and_salt :
  API.fresh_salt unreachable = "1700000000000"%string
  /\ API.fresh_sign unreachable API.initial
     = "276b52de3adb1a14a9940a2e3d82f995f717a029"%string
  /\ field "salt"
       (built unreachable [("sign", Str "forged"); ("salt", Str "0")]%string
          (page ∅))
     = Str "0"
  /\ field "sign"
       (built unreachable [("sign", Str "forged"); ("salt", Str "0")]%string
          (page ∅))
     = Str "forged"
  /\ In ("sign", "forged")%string
        (query (get_request unreachable "queryAccountInfo"
                  [("sign", Str "forged"); ("salt", Str "0")]%string (page ∅)))
  /\ In ("salt", "0")%string
        (query (get_request unreachable "queryAccountInfo"
                  [("sign", Str "forged"); ("salt", Str "0")]%string (page ∅))).
Proof. repeat split; vm_compute; tauto. Qed.

(** ** Identifiers *)

Lemma request_decodes_reply (e : env) (action : string) (params : object)
    (w : API.world) :
  decodes_reply e (get_request e action params w)
    (outcome (API.request e action params) w).
Proof.
  split.
  - intros fields Hreply. now apply request_decodes.
  - intros message Hfail. run_method.
    fold_request (get_request e action params w).
    destruct Hfail as [-> | ->]; reflexivity.
Qed.

(** C8, as the code has it.  The data methods do not inspect their
    identifiers.  Called with values that can be converted to strings,
    the empty string among them, on a client whose base URL, token and
    secret can be converted too, each of the nine hands exactly one
    request with its action to [fetch] and returns what the reply decodes
    to; the request of [getDeviceLastData] carries the four identifiers as
    the caller gave them, and the client is left as it was. *)
Theorem getDeviceLastData_sends_what_it_gets (e : env)
    (pn devcode devaddr sn parameter date plantId id val : value)
    (w : API.world) :
  client_converts w = true ->
  Forall (fun v => convertible v = true)
    [pn; devcode; devaddr; sn; parameter; date; plantId; id; val] ->
  (exists req,
     requests_sent (API.getDeviceLastData e pn devcode devaddr sn) w = [req]
     /\ In ("action", "querySPDeviceLastData")%string (query req)
     /\ In ("pn", to_string pn)%string (query req)
     /\ In ("devcode", to_string devcode)%string (query req)
     /\ In ("devaddr", to_string devaddr)%string (query req)
     /\ In ("sn", to_string sn)%string (query req)
     /\ decodes_reply e req
          (outcome (API.getDeviceLastData e pn devcode devaddr sn) w)
     /\ world_after (API.getDeviceLastData e pn devcode devaddr sn) w = w)
  /\ Forall
       (fun entry =>
          exists req,
            requests_sent (snd entry) w = [req]
            /\ In ("action", fst entry)%string (query req)
            /\ decodes_reply e req (outcome (snd entry) w)
            /\ world_after (snd entry) w = w)
       (data_methods e pn devcode devaddr sn parameter date plantId id val).
Proof.
  intros _ _. split.
  - unfold API.getDeviceLastData.
    eexists. split; [apply request_sends |].
    split; [apply (request_query _ _ _ _ "action" (Str _)); reflexivity |].
    do 4 (split; [apply request_query; reflexivity |]).
    split; [apply request_decodes_reply | apply request_sends].
  - unfold data_methods.
    repeat (constructor;
            [cbn [fst snd];
             unfold API.getAccountInfo, API.getPlantInfo,
               API.getDeviceLastData, API.getDeviceKeyParameters,
               API.getDeviceOneDayHistory, API.getDeviceChartFields,
               API.getCollectorStatus, API.getDeviceControlFields,
               API.controlDevice;
             eexists; split; [apply request_sends |];
             split; [apply (request_query _ _ _ _ "action" (Str _));
                     reflexivity |];
             split; [apply request_decodes_reply | apply request_sends] |]).
    constructor.
Qed.

Lemma getDeviceLastData_sends_what_it_gets_witness :
  exists req,
    requests_sent
      (API.getDeviceLastData serving (Str "Q0001") (Num 2451) (Num 1) (Str ""))
      (page ∅)
    = [req]
    /\ In ("sn", "")%string (query req)
    /\ decodes_reply serving req
         (outcome
            (API.getDeviceLastData serving (Str "Q0001") (Num 2451) (Num 1)
               (Str ""))
            (page ∅)).
Proof.
  destruct (getDeviceLastData_sends_what_it_gets serving (Str "Q0001")
              (Num 2451) (Num 1) (Str "") (Str "bat_vol")
              (Str "2023-11-14") (Str "P1") (Str "id") (Str "1") (page ∅))
    as [(req & Hsent & _ & _ & _ & _ & Hsn & Hreply & _) _].
  - reflexivity.
  - repeat constructor.
  - exists req. split; [exact Hsent |]. split; [exact Hsn | exact Hreply].
Defined.

(** C8, as stated, fails on the empty serial number: the call is not
    refused, one request goes to the network with [sn] empty, and the
    reply of the server is returned. *)
Lemma empty_serial_number_is_sent :
  List.length
    (requests_sent
       (API.getDeviceLastData serving (Str "Q0001") (Num 2451) (Num 1) (Str ""))
       (page ∅))
  = 1
  /\ Forall (fun req => In ("sn", "")%string (query req))
       (requests_sent
          (API.getDeviceLastData serving (Str "Q0001") (Num 2451) (Num 1)
             (Str ""))
          (page ∅))
  /\ outcome
       (API.getDeviceLastData serving (Str "Q0001") (Num 2451) (Num 1) (Str ""))
       (page ∅)
     = Return (Obj [("success", Bool true); ("data", Null);
                    ("message", Str "ERR_NONE")]%string).
Proof.
  split; [vm_compute; reflexivity |]. split; [| vm_compute; reflexivity].
  vm_compute. constructor; [tauto | constructor].
Qed.

(** ** The salt *)

Lemma to_int_not_nil (z : Z) :
  Z.to_int z <> Decimal.Pos Decimal.Nil /\ Z.to_int z <> Decimal.Neg Decimal.Nil.
Proof.
  pose proof (DecimalZ.to_of (Z.to_int z)) as Hnorm.
  rewrite DecimalZ.of_to in Hnorm.
  split; intros Hnil; rewrite Hnil in Hnorm; discriminate.
Qed.

Lemma number_toString_inj (a b : Z) :
  number_toString a = number_toString b -> a = b.
Proof.
  unfold number_toString. intros Heq.
  assert (Hparse : forall z,
             NilZero.int_of_string (NilZero.string_of_int (Z.to_int z))
             = Some (Z.to_int z)).
  { intros z. destruct (to_int_not_nil z). now apply NilZero.isi. }
  pose proof (Hparse a) as Ha. rewrite Heq, Hparse in Ha.
  injection Ha as Ha.
  rewrite <- (DecimalZ.of_to a), <- (DecimalZ.of_to b). now rewrite Ha.
Qed.

(** C9, as the code has it.  The salt of a request is computed in the call
    that builds it, as the decimal representation of the clock in
    milliseconds.  Where the caller supplies no salt of his own, two built
    requests have the same salt exactly when the clock read the same
    millisecond in both calls. *)
Theorem salt_is_the_clock (e1 e2 : env) (params1 params2 : object)
    (w1 w2 : API.world) :
  lookup_field "salt" params1 = None ->
  lookup_field "salt" params2 = None ->
  field "salt" (built e1 params1 w1) = Str (number_toString (Date_now e1))
  /\ (field "salt" (built e1 params1 w1) = field "salt" (built e2 params2 w2)
      <-> Date_now e1 = Date_now e2).
Proof.
  intros H1 H2. rewrite !built_eq, !field_spread_absent by assumption.
  cbn. split; [reflexivity |]. split.
  - intros [= Heq]. now apply number_toString_inj.
  - unfold API.fresh_salt. now intros ->.
Qed.

Lemma salt_is_the_clock_witness :
  field "salt" (built (timing_out clock) [] (page ∅)) = Str "1700000000000"
  /\ field "salt" (built (timing_out clock) [] (page ∅))
     <> field "salt" (built (timing_out (clock + 1)) [] (page ∅)).
Proof.
  destruct (salt_is_the_clock (timing_out clock) (timing_out (clock + 1))
              [] [] (page ∅) (page ∅))
    as [Hsalt Hiff]; [reflexivity | reflexivity |].
  split.
  - exact Hsalt.
  - intros Heq. apply Hiff in Heq. discriminate Heq.
Defined.

(** C9, as stated, fails on two calls within one millisecond: the two
    requests that go out carry the same salt. *)
Lemma same_millisecond_same_salt :
  Date_now serving = Date_now unreachable
  /\ Forall (fun req => In ("salt", "1700000000000")%string (query req))
       (requests_sent
          (API.getDeviceLastData serving (Str "Q0001") (Num 2451) (Num 1)
             (Str "SN-1"))
          (page ∅)
        ++ requests_sent
             (API.getDeviceLastData unreachable (Str "Q0001") (Num 2451)
                (Num 1) (Str "SN-2"))
             (world_after
                (API.getDeviceLastData serving (Str "Q0001") (Num 2451)
                   (Num 1) (Str "SN-1"))
                (page ∅)))
  /\ field "salt" (built serving [] (page ∅))
     = field "salt" (built unreachable [] (page ∅)).
Proof.
  split; [reflexivity |]. split; [| reflexivity].
  vm_compute. constructor; [tauto |]. constructor; [tauto | constructor].
Qed.

(** ** The session *)

Lemma logout_runs (w : API.world) :
  API.logout w
  = (Return tt,
     API.World (API.State (API.baseURL (API.this w)) Null Null Null)
       (delete "api_credentials"%string (API.localStorage w)),
     []).
Proof. reflexivity. Qed.

Lemma init_paired (customBaseURL : value) (w : API.world) :
  session_paired w -> session_paired (world_after (API.init customBaseURL) w).
Proof.
  unfold session_paired. intros Hpaired. run_method.
  destruct (truthy customBaseURL); cbn;
    (destruct (Utils.getLocalStorage "api_credentials" (Obj [])
                 (API.localStorage w)) as [| | b | n | s | items | fields];
     cbn; try exact Hpaired);
    (destruct (truthy (field "token" fields)) eqn:Etok; cbn;
     [| rewrite Etok; exact Hpaired]);
    (destruct (truthy (field "secret" fields)) eqn:Esec; cbn;
     [| exact Hpaired]);
    now rewrite Etok, Esec.
Qed.

Lemma step_paired (w : API.world) (c : call) :
  session_paired w ->
  server_pairs_credentials c ->
  session_paired (step w c).
Proof.
  intros Hpaired Hserver. destruct c as [u | e email password | | e action params];
    cbn [step].
  - now apply init_paired.
  - destruct (login_world e email password w)
      as [-> | (data & dat & tok & sec & userid & Hreply & _ & Hdat & _
                & Htok & Hsec & _ & ->)];
      [exact Hpaired |].
    specialize (Hserver _ _ Hreply). unfold payload_paired in Hserver.
    rewrite Hdat, Htok, Hsec in Hserver.
    unfold session_paired. cbn. now apply Bool.eqb_prop.
  - reflexivity.
  - now destruct (request_sends e action params w) as [_ ->].
Qed.

(** C7, as the code has it.  In every state reached from the loaded page
    by calls of [init], [login], [logout] and the request methods, token
    and secret are both present or both absent, provided each reply to a
    login carries a token and a secret together or neither, as the vendor
    protocol has it; the client itself does not check that. *)
Theorem session_stays_paired (calls : list call) (storage : gmap string item) :
  Forall server_pairs_credentials calls ->
  session_paired (run calls (page storage)).
Proof.
  intros Hserver. unfold run.
  assert (Hstart : session_paired (page storage)) by reflexivity.
  revert Hstart. generalize (page storage).
  induction Hserver as [| c calls Hc _ IH]; intros w Hpaired; cbn;
    [exact Hpaired |].
  apply IH. now apply step_paired.
Qed.

Lemma session_stays_paired_witness :
  session_paired
    (run [Init Null; Login accepting user_email user_password;
          Request accepting "queryAccountInfo" []]
       (page ∅)).
Proof.
  apply session_stays_paired.
  repeat constructor. intros req data [= <-]. reflexivity.
Defined.

(** C7, as stated, fails on a server that accepts a login with a payload
    holding a token and no secret: the client then holds the token alone. *)
Lemma token_without_secret :
  API.token
    (API.this
       (run [Init Null; Login accepting_without_secret user_email user_password]
          (page ∅)))
  = Str "T"
  /\ API.secret
       (API.this
          (run [Init Null;
                Login accepting_without_secret user_email user_password]
             (page ∅)))
     = Undefined
  /\ ~ session_paired
         (run [Init Null;
               Login accepting_without_secret user_email user_password]
            (page ∅)).
Proof. repeat split. vm_compute. discriminate. Qed.

(** C10.  From a signed-out client, a login followed by a logout leaves
    the client and the persisted credentials exactly as they were
    before, whatever the login did.  A logout makes no request at all:
    from any state it returns, with token, secret and time reset and the
    persisted credentials removed. *)
Theorem login_logout_round_trip (e : env) (email password : value)
    (w w0 : API.world) :
  (signed_out w ->
   world_after API.logout (world_after (API.login e email password) w) = w)
  /\ signed_out (world_after API.logout w0)
  /\ outcome API.logout w0 = Return tt
  /\ requests_sent API.logout w0 = [].
Proof.
  split.
  - intros (Htok & Hsec & Htime & Hstored).
    destruct w as [[base tok sec time] storage]. cbn in *. subst.
    destruct (login_world e email password
                (API.World (API.State base Null Null Null) storage))
      as [-> | (data & dat & tok & sec & userid & _ & _ & _ & _ & _ & _ & _
                & ->)];
      cbn; f_equal.
    + now apply delete_id.
    + unfold Utils.setLocalStorage. destruct (setItem_succeeds e); cbn.
      * now apply delete_insert_id.
      * now apply delete_id.
  - unfold world_after, outcome, requests_sent, signed_out.
    rewrite logout_runs. cbn. repeat split. apply lookup_delete_eq.
Qed.

Lemma login_logout_round_trip_witness :
  outcome API.isAuthenticated
    (world_after (API.login accepting user_email user_password) (page ∅))
  = Return true
  /\ world_after API.logout
       (world_after (API.login accepting user_email user_password) (page ∅))
     = page ∅.
Proof.
  split; [reflexivity |].
  destruct (login_logout_round_trip accepting user_email user_password
              (page ∅) (page ∅)) as [Hround _].
  apply Hround. repeat split.
Defined.

(** ** JSON values and [deepClone] *)

(** Induction on a value and on the values inside it. *)
Lemma value_induction (P : value -> Prop) :
  P Undefined -> P Null -> (forall b, P (Bool b)) -> (forall n, P (Num n)) ->
  (forall s, P (Str s)) ->
  (forall items, List.Forall P items -> P (Arr items)) ->
  (forall fields, List.Forall (fun kv => P (snd kv)) fields -> P (Obj fields)) ->
  forall v, P v.
Proof.
  intros Hundef Hnull Hbool Hnum Hstr Harr Hobj.
  fix IH 1. intros [| | b | n | s | items | fields].
  - exact Hundef.
  - exact Hnull.
  - apply Hbool.
  - apply Hnum.
  - apply Hstr.
  - apply Harr. induction items as [| x items IHitems]; constructor.
    + apply IH.
    + exact IHitems.
  - apply Hobj. induction fields as [| [k x] fields IHfields]; constructor.
    + apply IH.
    + exact IHfields.
Qed.

Lemma json_clone_is_json (v : value) :
  v <> Undefined -> is_json (json_clone v) = true.
Proof.
  induction v as [| | b | n | s | items IH | fields IH] using value_induction;
    intros Hdef; try reflexivity; [contradiction | |].
  - clear Hdef. cbn. induction IH as [| x items Hx _ IHitems]; [reflexivity |].
    cbn. rewrite IHitems, andb_true_r.
    destruct x; try reflexivity; apply Hx; discriminate.
  - clear Hdef. cbn.
    induction IH as [| [k x] fields Hx _ IHfields]; [reflexivity |].
    cbn in *. destruct x; try exact IHfields;
      (cbn; rewrite IHfields, andb_true_r; try reflexivity; apply Hx; discriminate).
Qed.

Lemma json_clone_fixes_json (v : value) :
  is_json v = true -> json_clone v = v.
Proof.
  induction v as [| | b | n | s | items IH | fields IH] using value_induction;
    intros Hjson; try reflexivity.
  - cbn in *. f_equal.
    induction IH as [| x items Hx _ IHitems]; [reflexivity |].
    cbn in Hjson. apply andb_prop in Hjson as [Hjx Hrest].
    cbn. rewrite IHitems by assumption.
    destruct x; try discriminate; try reflexivity; now rewrite Hx.
  - cbn in *. f_equal.
    induction IH as [| [k x] fields Hx _ IHfields]; [reflexivity |].
    apply andb_prop in Hjson as [Hjx Hrest]. cbn in Hx.
    rewrite IHfields by assumption.
    destruct x; try discriminate; try reflexivity; now rewrite Hx.
Qed.

(** X7. [Utils.deepClone] throws on [undefined] alone.  What it returns
    is a JSON value, and cloning that again changes nothing; a value is
    returned as it is exactly when it is a JSON value already. *)
Theorem deepClone_normalises (v : value) :
  ((exists message, Utils.deepClone v = Throw message) <-> v = Undefined)
  /\ (forall c,
        Utils.deepClone v = Return c ->
        is_json c = true /\ Utils.deepClone c = Return c)
  /\ (Utils.deepClone v = Return v <-> is_json v = true).
Proof.
  split; [| split].
  - split; [| intros ->; eexists; reflexivity].
    intros [message H]. destruct v; try discriminate. reflexivity.
  - intros c H.
    assert (Hdef : v <> Undefined) by (intros ->; discriminate).
    assert (Hc : c = json_clone v).
    { unfold Utils.deepClone in H. destruct v; congruence. }
    pose proof (json_clone_is_json v Hdef) as Hjson. rewrite <- Hc in Hjson.
    split; [exact Hjson |].
    destruct c; try discriminate Hjson;
      unfold Utils.deepClone; f_equal; now apply json_clone_fixes_json.
  - split.
    + intros H.
      assert (Hdef : v <> Undefined) by (intros ->; discriminate).
      assert (Hc : v = json_clone v).
      { unfold Utils.deepClone in H. destruct v; congruence. }
      rewrite Hc. now apply json_clone_is_json.
    + intros Hjson. destruct v; try discriminate Hjson;
        unfold Utils.deepClone; f_equal; now apply json_clone_fixes_json.
Qed.

Lemma deepClone_normalises_witness :
  Utils.deepClone
    (Obj [("token", Str "T"); ("secret", Undefined);
          ("list", Arr [Num 1; Undefined])]%string)
  = Return (Obj [("token", Str "T"); ("list", Arr [Num 1; Null])]%string)
  /\ is_json (Obj [("token", Str "T"); ("list", Arr [Num 1; Null])]%string)
     = true.
Proof.
  destruct (deepClone_normalises
              (Obj [("token", Str "T"); ("secret", Undefined);
                    ("list", Arr [Num 1; Undefined])]%string))
    as (_ & Hclone & _).
  split; [reflexivity |].
  apply (Hclone (Obj [("token", Str "T"); ("list", Arr [Num 1; Null])]%string)).
  reflexivity.
Defined.

(** ** What a call always returns *)

Lemma or_truthy (a b : value) : truthy b = true -> truthy (or a b) = true.
Proof. intros Hb. unfold or. now destruct (truthy a) eqn:Ha. Qed.

(** Every outcome of the network and every body of the reply. *)
Lemma request_resolves (e : env) (action : string) (params : object)
    (w : API.world) :
  exists result,
    API.request e action params w
    = (Return (Obj result), w, [get_request e action params w])
    /\ (field "success" result = Bool true
        <-> exists data,
              Utils.fetchWithTimeout e (get_request e action params w)
              = Responds (JsonBody data)
              /\ get data "err" = Return (Num 0))
    /\ (field "success" result = Bool true
        \/ field "success" result = Bool false
           /\ truthy (field "error" result) = true).
Proof.
  run_method. fold_request (get_request e action params w).
  destruct (Utils.fetchWithTimeout e (get_request e action params w))
    as [message | [message | data]]; cbn.
  1, 2: eexists; split; [reflexivity |]; cbn; split;
    [split; [discriminate | intros (data & Hdata & _); discriminate]
    | right; split; [reflexivity | first [reflexivity | now apply or_truthy]]].
  destruct data as [| | b | n | s | items | fields]; cbn.
  1-6: eexists; split; [reflexivity |]; cbn; split;
    [split;
     [discriminate
     | intros (data & Hdata & Herr); injection Hdata as <-; discriminate Herr]
    | right; split; [reflexivity | first [reflexivity | now apply or_truthy]]].
  destruct (strict_eq_zero (field "err" fields)) eqn:Ezero; cbn;
    eexists; (split; [reflexivity |]); cbn.
  - apply strict_eq_zero_spec in Ezero. split; [| now left].
    split; [| reflexivity]. intros _. eexists. split; [reflexivity |].
    cbn. now rewrite Ezero.
  - split; [| right; split; [reflexivity | first [reflexivity | now apply or_truthy]]].
    split; [discriminate |]. intros (data & [= <-] & Herr). cbn in Herr.
    injection Herr as Herr. apply strict_eq_zero_spec in Herr. congruence.
Qed.

(** X1. Called with parameters that can be converted to strings, on a
    client whose base URL, token and secret can be converted too,
    [API.request] never throws, whatever the network and the server do, a
    body that is JSON [null] or not an object included.  It returns an
    object whose [success] is [true] exactly when a JSON body arrived in
    time with [err] the number 0, and [false] otherwise, then with a
    non-empty [error].  It hands one request to [fetch] and leaves the
    client and the storage as they were. *)
Theorem request_always_resolves (e : env) (action : string) (params : object)
    (w : API.world) :
  client_converts w = true ->
  params_convert params = true ->
  exists result,
    API.request e action params w
    = (Return (Obj result), w, [get_request e action params w])
    /\ (field "success" result = Bool true
        <-> exists data,
              Utils.fetchWithTimeout e (get_request e action params w)
              = Responds (JsonBody data)
              /\ get data "err" = Return (Num 0))
    /\ (field "success" result = Bool true
        \/ field "success" result = Bool false
           /\ truthy (field "error" result) = true).
Proof. intros _ _. apply request_resolves. Qed.

Lemma request_always_resolves_witness :
  exists result,
    API.request serving "queryPlantInfo" [("plantid", Num 7)]%string (page ∅)
    = (Return (Obj result), page ∅,
       [get_request serving "queryPlantInfo" [("plantid", Num 7)]%string
          (page ∅)])
    /\ (field "success" result = Bool true
        \/ field "success" result = Bool false
           /\ truthy (field "error" result) = true).
Proof.
  destruct (request_always_resolves serving "queryPlantInfo"
              [("plantid", Num 7)]%string (page ∅))
    as (result & Hruns & _ & Hsuccess).
  - reflexivity.
  - reflexivity.
  - exists result. split; [exact Hruns | exact Hsuccess].
Defined.

(** X2. [API.login] never throws and sends one request.  It returns an
    object whose [success] is [true] exactly when the reply was a JSON
    object with [err] the number 0 and a truthy [dat]; in every other case
    ([err] 0 with an empty payload, a body that is [null], a fetch that
    rejects) [success] is [false], the [error] is non-empty and the client
    and the storage are exactly as before the call. *)
Theorem login_reports_what_it_did (e : env) (email password : value)
    (w : API.world) :
  exists result,
    outcome (API.login e email password) w = Return (Obj result)
    /\ requests_sent (API.login e email password) w
       = [login_request email password w]
    /\ (field "success" result = Bool true
        <-> exists data dat,
              fetch e (login_request email password w)
              = Responds (JsonBody data)
              /\ get data "err" = Return (Num 0)
              /\ get data "dat" = Return dat
              /\ truthy dat = true)
    /\ (field "success" result = Bool true
        \/ field "success" result = Bool false
           /\ truthy (field "error" result) = true
           /\ world_after (API.login e email password) w = w).
Proof.
  run_method. fold_request (login_request email password w).
  destruct (fetch e (login_request email password w))
    as [message | [message | data]]; cbn.
  1, 2: eexists; split; [reflexivity |]; split; [reflexivity |]; cbn; split;
    [split; [discriminate | intros (data & dat & Hdata & _); discriminate]
    | right; split; [reflexivity | split; [first [reflexivity | now apply or_truthy] | reflexivity]]].
  destruct data as [| | b | n | s | items | fields]; cbn.
  1-6: eexists; split; [reflexivity |]; split; [reflexivity |]; cbn; split;
    [split;
     [discriminate
     | intros (data & dat & Hdata & Herr & _); injection Hdata as <-;
       discriminate Herr]
    | right; split;
      [reflexivity | split; [first [reflexivity | now apply or_truthy] | reflexivity]]].
  destruct (strict_eq_zero (field "err" fields)) eqn:Ezero; cbn.
  - apply strict_eq_zero_spec in Ezero.
    destruct (truthy (field "dat" fields)) eqn:Edat; cbn.
    + destruct (field "dat" fields) as [| | b | n | s | items | payload] eqn:Epay;
        try discriminate Edat; cbn;
        (destruct (setItem_succeeds e); cbn;
         eexists; (split; [reflexivity |]); (split; [reflexivity |]); cbn;
         (split; [| now left]); (split; [| reflexivity]); intros _;
         eexists; eexists; (split; [reflexivity |]); cbn;
         rewrite Ezero, Epay; repeat split; exact Edat).
    + eexists. split; [reflexivity |]. split; [reflexivity |]. cbn.
      split;
        [| right; split;
           [reflexivity | split; [first [reflexivity | now apply or_truthy] | reflexivity]]].
      split; [discriminate |].
      intros (data & dat & [= <-] & _ & Hdat & Htruthy). cbn in Hdat.
      injection Hdat as <-. congruence.
  - eexists. split; [reflexivity |]. split; [reflexivity |]. cbn.
    split;
      [| right; split;
         [reflexivity | split; [first [reflexivity | now apply or_truthy] | reflexivity]]].
    split; [discriminate |].
    intros (data & dat & [= <-] & Herr & _). cbn in Herr.
    injection Herr as Herr. apply strict_eq_zero_spec in Herr. congruence.
Qed.

(** ** The parameters of a request *)

Lemma lookup_field_None_keys (k : string) (o : object) :
  lookup_field k o = None <-> ~ In k (map fst o).
Proof.
  split; [| apply lookup_field_not_In].
  induction o as [| [k1 v1] o IH]; cbn; [intros _ [] |].
  destruct (String.eqb k k1) eqn:E; [discriminate |].
  apply String.eqb_neq in E. intros Hnone [Heq | Hin]; [congruence |].
  now apply IH.
Qed.

Lemma keys_toQueryString (o : object) :
  map fst (Utils.toQueryString o) = map fst o.
Proof.
  unfold Utils.toQueryString. rewrite map_map. reflexivity.
Qed.

Lemma set_field_In (k' k : string) (v : value) (o : object) :
  In k' (map fst (set_field k v o)) <-> k' = k \/ In k' (map fst o).
Proof.
  induction o as [| [k1 v1] o IH]; cbn.
  - intuition congruence.
  - destruct (String.eqb k k1) eqn:E; cbn.
    + apply String.eqb_eq in E. subst k1. intuition congruence.
    + rewrite IH. intuition congruence.
Qed.

Lemma set_field_NoDup (k : string) (v : value) (o : object) :
  List.NoDup (map fst o) -> List.NoDup (map fst (set_field k v o)).
Proof.
  induction o as [| [k1 v1] o IH]; cbn; intros Hnodup.
  - repeat constructor. intros [].
  - inversion Hnodup as [| ? ? Hfresh Hrest]; subst.
    destruct (String.eqb k k1) eqn:E; cbn.
    + apply String.eqb_eq in E. subst k1. constructor; assumption.
    + apply String.eqb_neq in E. constructor; [| now apply IH].
      rewrite set_field_In. intros [Heq | Hin]; [congruence | contradiction].
Qed.

Lemma set_field_keeps_keys (k k' : string) (v : value) (o : object) :
  In k' (map fst o) -> In k' (map fst (set_field k v o)).
Proof. intros Hin. apply set_field_In. now right. Qed.

Lemma spread_NoDup (a b : object) :
  List.NoDup (map fst a) -> List.NoDup (map fst (spread a b)).
Proof.
  unfold spread. revert a.
  induction b as [| [k v] b IH]; intros a Hnodup; cbn; [exact Hnodup |].
  apply IH. now apply set_field_NoDup.
Qed.

Lemma spread_In (k : string) (a b : object) :
  In k (map fst (spread a b)) <-> In k (map fst a) \/ In k (map fst b).
Proof.
  unfold spread. revert a.
  induction b as [| [k1 v1] b IH]; intros a; cbn; [tauto |].
  rewrite IH, set_field_In. cbn. intuition congruence.
Qed.

(** X3. Where the caller supplies no [sign], [salt] or [token] of his
    own, the request that goes out carries a salt, the token of the client
    and a signature that is the SHA-1 digest, in lowercase hexadecimal, of
    that salt followed by that token and by the secret of the client: a
    server that holds the secret can recompute it from the request.  The
    secret itself is not among the parameters, unless the caller put a
    parameter of that name there. *)
Theorem request_signature_verifies (e : env) (action : string)
    (params : object) (w : API.world) :
  lookup_field "sign" params = None ->
  lookup_field "salt" params = None ->
  lookup_field "token" params = None ->
  In ("salt", number_toString (Date_now e))%string
     (query (get_request e action params w))
  /\ In ("token", to_string (API.token (API.this w)))%string
        (query (get_request e action params w))
  /\ In ("sign",
         Protocol.sha1_hex
           (number_toString (Date_now e)
            ++ to_string (API.token (API.this w))
            ++ to_string (API.secret (API.this w))))%string
        (query (get_request e action params w))
  /\ (lookup_field "secret" params = None ->
      ~ In "secret"%string (map fst (query (get_request e action params w)))).
Proof.
  intros Hsign Hsalt Htoken.
  assert (Hown : forall k,
             k <> "action"%string -> lookup_field k params = None ->
             lookup_field k
               (built e (spread [("action", Str action)]%string params) w)
             = lookup_field k
                 (API.baseParams (API.fresh_sign e (API.this w))
                    (API.fresh_salt e) (API.token (API.this w)))).
  { intros k Hk Habsent. rewrite built_eq. apply lookup_spread_absent.
    rewrite lookup_spread_absent by assumption. cbn.
    apply String.eqb_neq in Hk. now rewrite Hk. }
  split; [| split; [| split]].
  - apply (request_query e action params w "salt" (Str _)).
    now rewrite Hown.
  - apply request_query. now rewrite Hown.
  - rewrite <- generateSignature_hex.
    apply (request_query e action params w "sign" (Str _)).
    now rewrite Hown.
  - intros Hsecret. unfold get_request. cbn [query].
    rewrite keys_toQueryString. apply lookup_field_None_keys.
    now rewrite Hown.
Qed.

Lemma request_signature_verifies_witness :
  In ("salt", "1700000000000")%string
     (query (get_request unreachable "queryAccountInfo" []
               (world_after (API.login accepting user_email user_password)
                  (page ∅))))
  /\ In ("token", "T")%string
        (query (get_request unreachable "queryAccountInfo" []
                  (world_after (API.login accepting user_email user_password)
                     (page ∅))))
  /\ In ("sign", "dafa73d864cfa9228e6764d281ce5727ad952216")%string
        (query (get_request unreachable "queryAccountInfo" []
                  (world_after (API.login accepting user_email user_password)
                     (page ∅)))).
Proof.
  destruct (request_signature_verifies unreachable "queryAccountInfo" []
              (world_after (API.login accepting user_email user_password)
                 (page ∅)))
    as (Hsalt & Htoken & Hsign & _); try reflexivity.
  split; [exact Hsalt |]. split; [exact Htoken |].
  vm_compute. tauto.
Defined.

Lemma request_keys_NoDup (e : env) (action : string) (params : object)
    (w : API.world) :
  List.NoDup (map fst (query (get_request e action params w))).
Proof.
  unfold get_request. cbn [query]. rewrite keys_toQueryString, built_eq.
  apply spread_NoDup. cbn.
  repeat (constructor; [cbn; intuition discriminate |]). constructor.
Qed.

(** X4. Whatever the caller supplies, no parameter name occurs twice in
    the request that goes out, and the action, the signature, the salt,
    the token and the six fields that identify the app are all there. *)
Theorem request_parameters_are_unique (e : env) (action : string)
    (params : object) (w : API.world) :
  List.NoDup (map fst (query (get_request e action params w)))
  /\ Forall (fun k => In k (map fst (query (get_request e action params w))))
       ["action"; "sign"; "salt"; "token"; "i18n"; "lang"; "source";
        "_app_client_"; "_app_id_"; "_app_version_"]%string.
Proof.
  split; [apply request_keys_NoDup |].
  unfold get_request. cbn [query]. rewrite keys_toQueryString, built_eq.
  repeat (constructor; [rewrite !spread_In; cbn; tauto |]).
  constructor.
Qed.

Lemma request_carries (e : env) (action : string) (params : object)
    (w : API.world) (k : string) (v : value) :
  lookup_field k
    (spread
       (API.baseParams (API.fresh_sign e (API.this w)) (API.fresh_salt e)
          (API.token (API.this w)))
       (spread [("action", Str action)]%string params))
  = Some v ->
  In (k, to_string v) (query (get_request e action params w)).
Proof. intros H. apply request_query. now rewrite built_eq. Qed.

(** X5. The nine data methods cannot be made to send anything but their
    own action, the salt of the call, the token of the client and the
    signature over them: whatever values that can be converted to strings
    they are called with, on a client whose base URL, token and secret
    can be converted too, each hands one GET request with a timeout of
    30000 ms to [fetch], and that request carries exactly these. *)
Theorem data_methods_keep_reserved_fields (e : env)
    (pn devcode devaddr sn parameter date plantId id val : value)
    (w : API.world) :
  client_converts w = true ->
  Forall (fun v => convertible v = true)
    [pn; devcode; devaddr; sn; parameter; date; plantId; id; val] ->
  Forall
    (fun entry =>
       exists req,
         requests_sent (snd entry) w = [req]
         /\ method req = "GET"%string
         /\ timeout req = Some 30000%Z
         /\ In ("action", fst entry)%string (query req)
         /\ In ("salt", API.fresh_salt e)%string (query req)
         /\ In ("token", to_string (API.token (API.this w)))%string (query req)
         /\ In ("sign", API.fresh_sign e (API.this w))%string (query req))
    (data_methods e pn devcode devaddr sn parameter date plantId id val).
Proof.
  intros _ _. unfold data_methods.
  repeat (constructor;
          [cbn [fst snd];
           unfold API.getAccountInfo, API.getPlantInfo, API.getDeviceLastData,
             API.getDeviceKeyParameters, API.getDeviceOneDayHistory,
             API.getDeviceChartFields, API.getCollectorStatus,
             API.getDeviceControlFields, API.controlDevice;
           eexists; split; [apply request_sends |];
           split; [reflexivity |]; split; [reflexivity |];
           split; [apply (request_carries _ _ _ _ "action" (Str _)); cbn;
                   reflexivity |];
           split; [apply (request_carries _ _ _ _ "salt" (Str _)); cbn;
                   reflexivity |];
           split; [apply request_carries; cbn; reflexivity |];
           apply (request_carries _ _ _ _ "sign" (Str _)); cbn;
           reflexivity |]).
  constructor.
Qed.

Lemma data_methods_keep_reserved_fields_witness :
  Forall
    (fun entry =>
       exists req,
         requests_sent (snd entry) (page ∅) = [req]
         /\ method req = "GET"%string
         /\ timeout req = Some 30000%Z
         /\ In ("action", fst entry)%string (query req)
         /\ In ("salt", API.fresh_salt serving)%string (query req)
         /\ In ("token", "null")%string (query req)
         /\ In ("sign", API.fresh_sign serving (API.this (page ∅)))%string
              (query req))
    (data_methods serving (Str "Q0001") (Num 2451) (Num 1) (Str "SN-1")
       (Str "bat_vol") (Str "2023-11-14") (Str "P1")
       (Str "bse_output_source_priority") (Str "1")).
Proof.
  apply (data_methods_keep_reserved_fields serving (Str "Q0001") (Num 2451)
           (Num 1) (Str "SN-1") (Str "bat_vol") (Str "2023-11-14")
           (Str "P1") (Str "bse_output_source_priority") (Str "1") (page ∅)).
  - reflexivity.
  - repeat constructor.
Defined.

(** ** Local storage *)

(** X6. A value written with [setLocalStorage] is read back with
    [getLocalStorage] as its JSON clone; a write of [undefined] reads back
    as the default, and so does a key that has been removed.  A write
    that fails changes nothing, and a write never changes what another
    key reads. *)
Theorem local_storage_round_trip (e : env) (key other : string)
    (v defaultValue : value) (ls : gmap string item) :
  (setItem_succeeds e = true ->
   fst (Utils.setLocalStorage e key v ls) = true
   /\ Utils.getLocalStorage key defaultValue
        (snd (Utils.setLocalStorage e key v ls))
      = match Utils.deepClone v with
        | Return clone => clone
        | Throw _ => defaultValue
        end)
  /\ (setItem_succeeds e = false ->
      Utils.setLocalStorage e key v ls = (false, ls))
  /\ (other <> key ->
      Utils.getLocalStorage other defaultValue
        (snd (Utils.setLocalStorage e key v ls))
      = Utils.getLocalStorage other defaultValue ls)
  /\ Utils.getLocalStorage key defaultValue
       (snd (Utils.removeLocalStorage key
               (snd (Utils.setLocalStorage e key v ls))))
     = defaultValue.
Proof.
  unfold Utils.setLocalStorage, Utils.getLocalStorage,
    Utils.removeLocalStorage.
  split; [| split; [| split]].
  - intros ->. cbn. rewrite lookup_insert_eq. split; [reflexivity |].
    destruct v; reflexivity.
  - now intros ->.
  - intros Hne. destruct (setItem_succeeds e); cbn; [| reflexivity].
    rewrite lookup_insert_ne by congruence. reflexivity.
  - cbn. now rewrite lookup_delete_eq.
Qed.

Lemma local_storage_round_trip_witness :
  Utils.getLocalStorage "settings_notifications" (Bool true)
    (snd (Utils.setLocalStorage serving "settings_notifications" (Bool false)
            ∅))
  = Bool false
  /\ Utils.getLocalStorage "settings_theme" (Str "dark")
       (snd (Utils.setLocalStorage serving "settings_notifications"
               (Bool false) ∅))
     = Str "dark".
Proof.
  destruct (local_storage_round_trip serving "settings_notifications"
              "settings_theme" (Bool false) (Bool true) ∅)
    as (Hread & _ & _ & _).
  destruct (local_storage_round_trip serving "settings_notifications"
              "settings_theme" (Bool false) (Str "dark") ∅)
    as (_ & _ & Hother & _).
  split.
  - apply Hread. reflexivity.
  - rewrite Hother; [reflexivity | discriminate].
Defined.

(** ** Loading the page *)

Lemma is_json_field (k : string) (fields : object) :
  is_json (Obj fields) = true -> field k fields <> Undefined ->
  is_json (field k fields) = true.
Proof.
  unfold field. cbn.
  induction fields as [| [k1 v1] fields IH]; cbn; [contradiction |].
  intros Hjson Hdef. apply andb_prop in Hjson as [Hv Hrest].
  destruct (String.eqb k k1); [exact Hv | now apply IH].
Qed.

Lemma truthy_defined (v : value) : truthy v = true -> v <> Undefined.
Proof. now intros Htruthy ->. Qed.

(** What [init] does, by what is stored under the key of the client. *)
Lemma init_runs (customBaseURL : value) (w : API.world) :
  let base := if truthy customBaseURL then customBaseURL
              else API.baseURL (API.this w) in
  API.init customBaseURL w
  = match Utils.getLocalStorage "api_credentials" (Obj [])
            (API.localStorage w) with
    | Undefined =>
        (Throw "Cannot read properties of undefined (reading 'token')",
         API.World (API.set_baseURL base (API.this w)) (API.localStorage w),
         [])
    | Null =>
        (Throw "Cannot read properties of null (reading 'token')",
         API.World (API.set_baseURL base (API.this w)) (API.localStorage w),
         [])
    | Obj fields =>
        (Return tt,
         API.World
           (if truthy (field "token" fields) && truthy (field "secret" fields)
            then API.State base (field "token" fields) (field "secret" fields)
                   (field "authTime" fields)
            else API.set_baseURL base (API.this w))
           (API.localStorage w),
         [])
    | _ =>
        (Return tt,
         API.World (API.set_baseURL base (API.this w)) (API.localStorage w),
         [])
    end.
Proof.
  destruct w as [[b t s a] ls]. run_method.
  destruct (truthy customBaseURL); cbn;
    (destruct (Utils.getLocalStorage "api_credentials" (Obj []) ls)
       as [| | x | n | x | items | fields]; cbn; try reflexivity);
    (destruct (truthy (field "token" fields)) eqn:Etok; cbn;
     [| now rewrite Etok]);
    now destruct (truthy (field "secret" fields)) eqn:Esec.
Qed.

(** X9. [API.init] sends nothing and writes nothing to local storage; it
    changes the base URL exactly when it is given a truthy one.  It throws
    exactly when the stored credentials parse to [null], and then the
    session of the client is what it was. *)
Theorem init_outcome (customBaseURL : value) (w : API.world) :
  requests_sent (API.init customBaseURL) w = []
  /\ API.localStorage (world_after (API.init customBaseURL) w)
     = API.localStorage w
  /\ API.baseURL (API.this (world_after (API.init customBaseURL) w))
     = (if truthy customBaseURL then customBaseURL
        else API.baseURL (API.this w))
  /\ ((exists message, outcome (API.init customBaseURL) w = Throw message)
      <-> API.localStorage w !! "api_credentials"%string = Some (Json Null)
          \/ API.localStorage w !! "api_credentials"%string
             = Some (Json Undefined))
  /\ ((exists message, outcome (API.init customBaseURL) w = Throw message) ->
      API.token (API.this (world_after (API.init customBaseURL) w))
      = API.token (API.this w)
      /\ API.secret (API.this (world_after (API.init customBaseURL) w))
         = API.secret (API.this w)
      /\ API.authTime (API.this (world_after (API.init customBaseURL) w))
         = API.authTime (API.this w)).
Proof.
  unfold requests_sent, world_after, outcome.
  rewrite (init_runs customBaseURL w). cbv zeta.
  unfold Utils.getLocalStorage.
  destruct (API.localStorage w !! "api_credentials"%string)
    as [[| [| | b | n | s | items | fields]] |] eqn:Estored; cbn;
    repeat split;
    try reflexivity;
    try (intros [message Hthrow]; discriminate Hthrow);
    try (intros [Hnull | Hundef]; discriminate);
    try (eexists; reflexivity);
    try (now left); try (now right);
    try (destruct (truthy (field "token" fields)
                   && truthy (field "secret" fields)); reflexivity);
    match goal with
    | H : exists message, Return tt = Throw message |- _ =>
        destruct H as [message H]; discriminate H
    end.
Qed.

Lemma init_outcome_witness :
  outcome (API.init Null) (page {["api_credentials"%string := Json Null]})
  = Throw "Cannot read properties of null (reading 'token')"
  /\ API.token
       (API.this
          (world_after (API.init Null)
             (page {["api_credentials"%string := Json Null]})))
     = Null.
Proof.
  destruct (init_outcome Null (page {["api_credentials"%string := Json Null]}))
    as (_ & _ & _ & _ & Hkept).
  split; [reflexivity |].
  destruct Hkept as (Htok & _ & _); [eexists; reflexivity | exact Htok].
Defined.

(** X10. After a page load the client counts as authenticated exactly when
    the stored credentials are an object with a truthy token and a truthy
    secret; credentials that are absent, malformed, not an object, or that
    hold only one of the two, leave it signed out. *)
Theorem authenticated_after_reload (storage : gmap string item) :
  outcome API.isAuthenticated (reload storage)
  = Return
      match Utils.getLocalStorage "api_credentials" (Obj []) storage with
      | Obj fields =>
          truthy (field "token" fields) && truthy (field "secret" fields)
      | _ => false
      end
  /\ (outcome API.isAuthenticated (reload storage) = Return false ->
      API.token (API.this (reload storage)) = Null
      /\ API.secret (API.this (reload storage)) = Null
      /\ API.authTime (API.this (reload storage)) = Null).
Proof.
  unfold reload, world_after, outcome. rewrite (init_runs Null (page storage)).
  cbv zeta. unfold page. cbn [API.localStorage API.this].
  destruct (Utils.getLocalStorage "api_credentials" (Obj []) storage)
    as [| | b | n | s | items | fields]; cbn; try (repeat split; reflexivity).
  destruct (truthy (field "token" fields)) eqn:Etok;
    destruct (truthy (field "secret" fields)) eqn:Esec; cbn;
    rewrite ?Etok, ?Esec; cbn;
    (split; [reflexivity |]); intros Hout;
    [discriminate Hout | | |]; repeat split.
Qed.

Lemma authenticated_after_reload_witness :
  outcome API.isAuthenticated
    (reload {["api_credentials"%string
              := Json (Obj [("token", Str "T")]%string)]})
  = Return false
  /\ API.token
       (API.this
          (reload {["api_credentials"%string
                    := Json (Obj [("token", Str "T")]%string)]}))
     = Null.
Proof.
  destruct (authenticated_after_reload
              {["api_credentials"%string
                := Json (Obj [("token", Str "T")]%string)]})
    as [Hauth Hout].
  split; [exact Hauth |]. now apply Hout.
Defined.

Lemma reload_restores (tok sec userid email : value) (n : Z)
    (storage : gmap string item) :
  truthy tok = true -> truthy sec = true ->
  json_clone tok = tok -> json_clone sec = sec ->
  API.this
    (reload
       (<["api_credentials"%string
          := item_of_value
               (Obj [("token", tok); ("secret", sec); ("authTime", Num n);
                     ("userid", userid); ("email", email)]%string)]> storage))
  = API.State (API.baseURL API.initial) tok sec (Num n).
Proof.
  intros Htok Hsec Hjtok Hjsec.
  unfold reload, world_after. rewrite init_runs. cbv zeta.
  unfold page. cbn [API.localStorage API.this fst snd].
  unfold Utils.getLocalStorage. rewrite lookup_insert_eq.
  assert (Hstored :
            exists rest,
              item_of_value
                (Obj [("token", tok); ("secret", sec); ("authTime", Num n);
                      ("userid", userid); ("email", email)]%string)
              = Json (Obj (("token", tok) :: ("secret", sec)
                           :: ("authTime", Num n) :: rest)%string)).
  { destruct tok; try discriminate Htok;
      destruct sec; try discriminate Hsec;
      cbn [item_of_value json_clone] in *;
      rewrite ?Hjtok, ?Hjsec; eexists; reflexivity. }
  destruct Hstored as [rest ->].
  change (field "token" (("token", tok) :: ("secret", sec)
                         :: ("authTime", Num n) :: rest)%string) with tok.
  change (field "secret" (("token", tok) :: ("secret", sec)
                          :: ("authTime", Num n) :: rest)%string) with sec.
  change (field "authTime" (("token", tok) :: ("secret", sec)
                            :: ("authTime", Num n) :: rest)%string)
    with (Num n).
  rewrite Htok, Hsec. reflexivity.
Qed.

(** X8. A session survives a reload of the page.  When the server accepts
    a login with a JSON payload whose token and secret are truthy, and the
    write to local storage succeeds, the next page load restores the same
    token, secret and time of login; the base URL is the built-in one
    again, whatever it was set to before. *)
Theorem session_survives_reload (e : env) (email password : value)
    (w : API.world) (fields payload : object) :
  fetch e (login_request email password w) = Responds (JsonBody (Obj fields)) ->
  field "err" fields = Num 0 ->
  field "dat" fields = Obj payload ->
  is_json (Obj payload) = true ->
  truthy (field "token" payload) = true ->
  truthy (field "secret" payload) = true ->
  setItem_succeeds e = true ->
  API.this
    (reload (API.localStorage (world_after (API.login e email password) w)))
  = API.State (API.baseURL API.initial) (field "token" payload)
      (field "secret" payload) (Num (Date_now e))
  /\ outcome API.isAuthenticated
       (reload (API.localStorage (world_after (API.login e email password) w)))
     = Return true.
Proof.
  intros Hreply Herr Hdat Hjson Htok Hsec Hwrite.
  pose proof (is_json_field "token" payload Hjson (truthy_defined _ Htok))
    as Hjtok.
  pose proof (is_json_field "secret" payload Hjson (truthy_defined _ Hsec))
    as Hjsec.
  apply json_clone_fixes_json in Hjtok, Hjsec.
  assert (Hstorage :
            API.localStorage (world_after (API.login e email password) w)
            = <["api_credentials"%string
                := item_of_value
                     (Obj [("token", field "token" payload);
                           ("secret", field "secret" payload);
                           ("authTime", Num (Date_now e));
                           ("userid", field "userid" payload);
                           ("email", email)]%string)]> (API.localStorage w)).
  { unfold world_after.
    rewrite (login_accepted _ _ _ _ _ _ Hreply Herr Hdat).
    cbn [fst snd API.localStorage]. unfold Utils.setLocalStorage.
    now rewrite Hwrite. }
  rewrite Hstorage.
  pose proof (reload_restores _ _ (field "userid" payload) email
                (Date_now e) (API.localStorage w) Htok Hsec Hjtok Hjsec)
    as Hthis.
  split; [exact Hthis |].
  unfold outcome, API.isAuthenticated, API.read. cbn [fst].
  rewrite Hthis. cbn. now rewrite Htok, Hsec.
Qed.

Lemma session_survives_reload_witness :
  API.this
    (reload
       (API.localStorage
          (world_after (API.login accepting user_email user_password)
             (page ∅))))
  = API.State (API.baseURL API.initial) (Str "T") (Str "S") (Num clock).
Proof.
  apply (session_survives_reload accepting user_email user_password
           (page ∅)
           [("err", Num 0); ("desc", Str "ok");
            ("dat", Obj session_payload)]%string
           session_payload);
    reflexivity.
Defined.

(** X11. A logout is final.  From any state of the client, after a logout
    the stored credentials read as the empty object, the client does not
    count as authenticated, and a reload of the page finds no session
    either. *)
Theorem logout_is_final (w : API.world) :
  outcome API.getStoredCredentials (world_after API.logout w) = Return (Obj [])
  /\ outcome API.isAuthenticated (world_after API.logout w) = Return false
  /\ signed_out (reload (API.localStorage (world_after API.logout w)))
  /\ outcome API.isAuthenticated
       (reload (API.localStorage (world_after API.logout w)))
     = Return false
  /\ world_after API.clearStoredCredentials w = world_after API.logout w.
Proof.
  unfold world_after at 1 2 3 4. rewrite logout_runs. cbn [fst snd].
  assert (Hgone :
            Utils.getLocalStorage "api_credentials" (Obj [])
              (delete "api_credentials"%string (API.localStorage w))
            = Obj []).
  { unfold Utils.getLocalStorage. now rewrite lookup_delete_eq. }
  split; [exact (f_equal Return Hgone) |]. split; [reflexivity |].
  assert (Hreload :
            reload (delete "api_credentials"%string (API.localStorage w))
            = page (delete "api_credentials"%string (API.localStorage w))).
  { unfold reload, world_after. rewrite init_runs. cbv zeta.
    unfold page. cbn [API.localStorage API.this]. rewrite Hgone. reflexivity. }
  cbn [API.localStorage]. rewrite Hreload.
  split; [| split; reflexivity].
  repeat split. cbn. apply lookup_delete_eq.
Qed.

(** ** Sending a control command from the devices view *)

Lemma bind_request (B : Type) (e : env) (action : string) (params : object)
    (k : value -> API.M B) (w : API.world) (result : object) :
  API.request e action params w
  = (Return (Obj result), w, [get_request e action params w]) ->
  API.bind (API.request e action params) k w
  = (let '(r, w2, sent2) := k (Obj result) w in
     (r, w2, get_request e action params w :: sent2)).
Proof. intros H. unfold API.bind. now rewrite H. Qed.

Lemma bind_lift_return (A B : Type) (a : A) (k : A -> API.M B)
    (w : API.world) :
  API.bind (API.lift (Return a)) k w = k a w.
Proof.
  unfold API.bind, API.lift. now destruct (k a w) as [[r w2] sent2].
Qed.

(** X12. [Devices.sendControl] on a device object whose identifiers can
    be converted to strings, its serial number not [__proto__], with a
    field id and a value that can be converted, on a client whose base
    URL, token and secret can be converted too, sends the control command
    once, with the field id and the value it was given.  When the command
    fails with an error that can be converted to a string, it sends
    nothing more, shows the error of the failure and leaves the cache of
    device data as it was.  When the command succeeds
    it reads the data of the device back with one request, and the cache
    changes at most at the serial number of the device, to the data that
    were read; in no case is the command sent a second time or the client
    changed. *)
Theorem sendControl_sends_the_command_once (e_control e_read : env)
    (d : object) (fieldId val : value) (view : Devices.state)
    (w : API.world) :
  client_converts w = true ->
  Forall (fun v => convertible v = true)
    [field "pn" d; field "devcode" d; field "devaddr" d; field "sn" d;
     fieldId; val] ->
  to_string (field "sn" d) <> "__proto__"%string ->
  let control_request :=
    get_request e_control "ctrlDevice"
      [("pn", field "pn" d); ("devcode", field "devcode" d);
       ("devaddr", field "devaddr" d); ("sn", field "sn" d);
       ("id", fieldId); ("val", val)]%string w in
  let read_request :=
    get_request e_read "querySPDeviceLastData"
      [("pn", field "pn" d); ("devcode", field "devcode" d);
       ("devaddr", field "devaddr" d); ("sn", field "sn" d)]%string w in
  exists response,
    outcome (API.controlDevice e_control (field "pn" d) (field "devcode" d)
               (field "devaddr" d) (field "sn" d) fieldId val) w
    = Return (Obj response)
    /\ In ("id", to_string fieldId)%string (query control_request)
    /\ In ("val", to_string val)%string (query control_request)
    /\ (field "success" response = Bool false ->
        convertible (field "error" response) = true ->
        Devices.sendControl e_control e_read (Obj d) fieldId val view w
        = (Return
             (view,
              [(("Failed to send control command: "
                 ++ to_string (field "error" response)),
                "error")]%string),
           w, [control_request]))
    /\ (field "success" response = Bool true ->
        exists view',
          Devices.sendControl e_control e_read (Obj d) fieldId val view w
          = (Return
               (view', [("Control command sent successfully", "success")]%string),
             w, [control_request; read_request])
          /\ Devices.devices view' = Devices.devices view
          /\ Devices.selectedDevice view' = Devices.selectedDevice view
          /\ (Devices.lastDataCache view' = Devices.lastDataCache view
              \/ exists data,
                   Devices.lastDataCache view'
                   = set_field (to_string (field "sn" d)) data
                       (Devices.lastDataCache view))).
Proof.
  intros _ _ _ control_request read_request.
  destruct (request_resolves e_control "ctrlDevice"
              [("pn", field "pn" d); ("devcode", field "devcode" d);
               ("devaddr", field "devaddr" d); ("sn", field "sn" d);
               ("id", fieldId); ("val", val)]%string w)
    as (response & Hcontrol & _ & _).
  destruct (request_resolves e_read "querySPDeviceLastData"
              [("pn", field "pn" d); ("devcode", field "devcode" d);
               ("devaddr", field "devaddr" d); ("sn", field "sn" d)]%string w)
    as (reading & Hread & _ & Hbool).
  fold control_request in Hcontrol. fold read_request in Hread.
  exists response.
  split; [unfold outcome, API.controlDevice; now rewrite Hcontrol |].
  split; [apply request_carries; reflexivity |].
  split; [apply request_carries; reflexivity |].
  unfold Devices.sendControl, API.controlDevice, API.getDeviceLastData.
  cbn [get]. rewrite !bind_lift_return.
  rewrite (bind_request _ _ _ _ _ _ _ Hcontrol).
  cbn [get]. rewrite bind_lift_return.
  split.
  - intros Hfailed _. rewrite Hfailed. cbn [truthy].
    rewrite bind_lift_return. reflexivity.
  - intros Hsucceeded. rewrite Hsucceeded. cbn [truthy].
    rewrite !bind_lift_return.
    rewrite (bind_request _ _ _ _ _ _ _ Hread).
    cbn [get]. rewrite bind_lift_return.
    destruct Hbool as [Htrue | [Hfalse _]].
    + rewrite Htrue. cbn [truthy]. rewrite !bind_lift_return.
      eexists. split; [reflexivity |].
      cbn. repeat split. right. eexists. reflexivity.
    + rewrite Hfalse. cbn [truthy].
      eexists. split; [reflexivity |].
      repeat split. now left.
Qed.

Lemma sendControl_sends_the_command_once_witness :
  Devices.sendControl (refusing "ERR_NO_AUTH") serving (Obj inverter)
    (Str "bse_output_source_priority") (Str "1") empty_view (page ∅)
  = (Return
       (empty_view,
        [("Failed to send control command: ERR_NO_AUTH", "error")]%string),
     page ∅,
     [get_request (refusing "ERR_NO_AUTH") "ctrlDevice"
        [("pn", Str "Q0001"); ("devcode", Num 2451); ("devaddr", Num 1);
         ("sn", Str "SN-1"); ("id", Str "bse_output_source_priority");
         ("val", Str "1")]%string (page ∅)]).
Proof.
  destruct (sendControl_sends_the_command_once (refusing "ERR_NO_AUTH")
              serving inverter (Str "bse_output_source_priority") (Str "1")
              empty_view (page ∅))
    as (response & Hresponse & _ & _ & Hfailed & _);
    [reflexivity | repeat constructor | discriminate |].
  assert (Hshape :
            response
            = [("success", Bool false); ("error", Str "ERR_NO_AUTH");
               ("data", Null)]%string).
  { vm_compute in Hresponse. now injection Hresponse as <-. }
  subst response. apply Hfailed; reflexivity.
Defined.

(** ** Query strings *)






















Example parse_tolerates_malformed_input :
  URLSearchParams.parse "?a=1&&b=%zz&c&=x"
  = [("a", "1"); ("b", "%zz"); ("c", ""); ("", "x")]%string.
Proof. reflexivity. Qed.

Example toString_escapes :
  URLSearchParams.toString [("k", "~*-._ /?")]%string
  = "k=%7E*-._+%2F%3F"%string.
Proof. reflexivity. Qed.

(** ** More on what goes out and what stays *)

Lemma NoDup_keys_functional (A : Type) (l : list (string * A)) (k : string)
    (a b : A) :
  List.NoDup (map fst l) -> In (k, a) l -> In (k, b) l -> a = b.
Proof.
  induction l as [| [k1 x] l IH]; intros Hnodup Ha Hb; [destruct Ha |].
  inversion Hnodup as [| ? ? Hfresh Hrest]; subst.
  destruct Ha as [Ha | Ha]; destruct Hb as [Hb | Hb].
  - congruence.
  - injection Ha as -> ->. exfalso. apply Hfresh.
    now apply (in_map fst) in Hb.
  - injection Hb as -> ->. exfalso. apply Hfresh.
    now apply (in_map fst) in Ha.
  - now apply IH.
Qed.

(** X14. Every parameter the caller supplies goes out under its name with
    its value converted to a string, and nothing else goes out under that
    name: where the client fills in a parameter of the same name itself
    ([action], [token] and the rest), the caller's value replaces it. *)
Theorem caller_parameters_go_out (e : env) (action : string) (params : object)
    (w : API.world) (k : string) (v : value) :
  List.NoDup (map fst params) ->
  lookup_field k params = Some v ->
  In (k, to_string v) (query (get_request e action params w))
  /\ forall text,
       In (k, text) (query (get_request e action params w)) ->
       text = to_string v.
Proof.
  intros Hnodup Hpresent.
  assert (Hbuilt :
            lookup_field k
              (built e (spread [("action", Str action)]%string params) w)
            = Some v).
  { rewrite built_eq. apply lookup_spread_present.
    - apply spread_NoDup. repeat constructor. intros [].
    - now apply lookup_spread_present. }
  pose proof (request_query e action params w k v Hbuilt) as Hmine.
  split; [exact Hmine |].
  intros text Hin.
  exact (NoDup_keys_functional _ _ _ _ _
           (request_keys_NoDup e action params w) Hin Hmine).
Qed.

Lemma caller_parameters_go_out_witness :
  In ("action", "ctrlDevice")%string
     (query (get_request unreachable "queryAccountInfo"
               [("action", Str "ctrlDevice")]%string (page ∅)))
  /\ ~ In ("action", "queryAccountInfo")%string
         (query (get_request unreachable "queryAccountInfo"
                   [("action", Str "ctrlDevice")]%string (page ∅))).
Proof.
  destruct (caller_parameters_go_out unreachable "queryAccountInfo"
              [("action", Str "ctrlDevice")]%string (page ∅) "action"
              (Str "ctrlDevice"))
    as [Hout Honly].
  - repeat constructor. intros [].
  - reflexivity.
  - split; [exact Hout |]. intros Hin. apply Honly in Hin. discriminate Hin.
Defined.

(** X15. Of two accepted logins the second one counts.  When the second
    reply is accepted and its write to local storage succeeds, the client
    and the storage are what they would be had the first login not taken
    place. *)
Theorem second_login_replaces_first (e1 e2 : env)
    (email1 password1 email2 password2 : value) (w : API.world)
    (fields payload : object) :
  fetch e2 (login_request email2 password2 w)
  = Responds (JsonBody (Obj fields)) ->
  field "err" fields = Num 0 ->
  field "dat" fields = Obj payload ->
  setItem_succeeds e2 = true ->
  world_after (API.login e2 email2 password2)
    (world_after (API.login e1 email1 password1) w)
  = world_after (API.login e2 email2 password2) w.
Proof.
  intros Hreply Herr Hdat Hwrite.
  destruct (login_world e1 email1 password1 w)
    as [-> | (data & dat & tok & sec & userid & _ & _ & _ & _ & _ & _ & _
              & Hfirst)]; [reflexivity |].
  rewrite Hfirst.
  unfold world_after.
  rewrite (login_accepted e2 email2 password2 w fields payload Hreply Herr Hdat).
  rewrite (login_accepted e2 email2 password2 _ fields payload);
    [| exact Hreply | exact Herr | exact Hdat].
  cbn. unfold Utils.setLocalStorage. rewrite Hwrite. cbn.
  destruct (setItem_succeeds e1); cbn; [| reflexivity].
  now rewrite insert_insert_eq.
Qed.

Lemma second_login_replaces_first_witness :
  world_after (API.login accepting user_email user_password)
    (world_after
       (API.login accepting_without_secret (Str "other@example.com")
          (Str "pw"))
       (page ∅))
  = world_after (API.login accepting user_email user_password) (page ∅).
Proof.
  apply (second_login_replaces_first accepting_without_secret accepting
           (Str "other@example.com") (Str "pw") user_email user_password
           (page ∅)
           [("err", Num 0); ("desc", Str "ok");
            ("dat", Obj session_payload)]%string
           session_payload);
    reflexivity.
Defined.
